(** * Pricing, discount and billing calculations of the educational-center app

    A shallow embedding of the calculation methods of
    [contracts/models.py] and of [Subject.current_price] in
    [lessons/models.py], with the properties they satisfy.

    Conventions of the embedding.
    - A Python [Decimal] is an exact rational ([Q]); Python's [==] on
      decimals is numeric equality, written [==] ([Qeq]) here.  The
      decimal context (28 significant digits) is exact on the 8- and
      10-digit columns of these models, so sums, products and the
      division by 100 are exact.  The rounding that a database column
      applies when a row is written is not part of the methods: they are
      embedded up to the write, with a row holding what the instance
      holds, and the section on decimal columns adds the write as the
      database performs it.
    - A [datetime.date] is its proleptic Gregorian ordinal
      ([date.toordinal()]); date comparison is comparison of ordinals.
      [date.today()] is the parameter [today] of each method that reads it.
    - A table is the list of its rows in insertion order, a foreign key is
      the primary key of the row it points to, a nullable column is an
      [option].  Columns that no method below reads (names, notes, audit
      stamps, files) are left out of the records. *)

From Stdlib Require Import ZArith QArith Qminmax Qround List String Bool Lia Lqa Permutation.
Import ListNotations.

Local Open Scope Z_scope.

(** ** Python values *)

Abbreviation Decimal := Q (only parsing).

Definition date := Z.

(** [a < b] on decimals, as a boolean. *)
Definition Qlt_bool (a b : Decimal) : bool := negb (Qle_bool b a).

(** Python's [max(a, b)]: the first argument is kept unless the second is
    strictly greater. *)
Definition py_max (a b : Decimal) : Decimal := if Qlt_bool a b then b else a.

(** Python's [sum(iterable)]: starts at 0 and adds from the left. *)
Definition py_sum (l : list Decimal) : Decimal := fold_left Qplus l 0%Q.

(** Truth value of a decimal: zero is false. *)
Definition decimal_truthy (d : Decimal) : bool := negb (Qeq_bool d 0).

(** Truth value of a nullable integer column: [None] and [0] are false. *)
Definition int_truthy (o : option Z) : bool :=
  match o with
  | None => false
  | Some n => negb (n =? 0)
  end.

(** [datetime.date(year, month, day).toordinal()]. *)
Module Date.

Definition is_leap (year : Z) : bool :=
  (year mod 4 =? 0) && (negb (year mod 100 =? 0) || (year mod 400 =? 0)).

Definition days_before_year (year : Z) : Z :=
  let y := year - 1 in y * 365 + y / 4 - y / 100 + y / 400.

Definition days_in_month (year month : Z) : Z :=
  if month =? 2 then (if is_leap year then 29 else 28)
  else if (month =? 4) || (month =? 6) || (month =? 9) || (month =? 11) then 30
  else 31.

Fixpoint days_before_month_aux (year : Z) (m : nat) : Z :=
  match m with
  | O => 0
  | S k => days_before_month_aux year k + days_in_month year (Z.of_nat (S k))
  end.

Definition days_before_month (year month : Z) : Z :=
  days_before_month_aux year (Z.to_nat (month - 1)).

Definition ymd (year month day : Z) : date :=
  days_before_year year + days_before_month year month + day.

End Date.

(** ** The models *)

Module PriceList.
Record t := mk {
  pk : nat;
  subject : nat;
  price_per_hour : Decimal;
  valid_from : date;
  valid_to : option date;
  is_active : bool
}.
End PriceList.

Module DiscountType.
Record t := mk {
  is_percentage : bool;
  is_active : bool
}.
End DiscountType.

(** [discount_type] is a non-null foreign key; the row it points to is
    carried in the record, which is what [discount.discount_type] loads. *)
Module Discount.
Record t := mk {
  pk : nat;
  discount_type : DiscountType.t;
  value : Decimal;
  valid_from : date;
  valid_to : option date;
  is_active : bool;
  min_subjects : option Z;
  max_subjects : option Z;
  applies_to_family : bool
}.
End Discount.

Module ContractItem.
Record t := mk {
  pk : nat;
  contract : nat;
  child : nat;
  subject : nat;
  base_price : Decimal;
  final_price : Decimal;
  is_active : bool
}.

Definition set_final_price (v : Decimal) (self : t) : t :=
  mk (pk self) (contract self) (child self) (subject self)
     (base_price self) v (is_active self).
End ContractItem.

Module ContractItemDiscount.
Record t := mk {
  pk : nat;
  contract_item : nat;
  discount : nat;
  discount_amount : Decimal;
  applied_by : nat
}.
End ContractItemDiscount.

Module Invoice.
Record t := mk {
  pk : nat;
  subtotal : Decimal;
  total_discount : Decimal;
  total_amount : Decimal;
  status : string;
  due_date : date
}.

Definition set_totals (s d a : Decimal) (self : t) : t :=
  mk (pk self) s d a (status self) (due_date self).
End Invoice.

Module InvoiceItem.
Record t := mk {
  pk : nat;
  invoice : nat;
  quantity : Decimal;
  unit_price : Decimal;
  discount_amount : Decimal;
  total_amount : Decimal
}.

Definition set_total_amount (v : Decimal) (self : t) : t :=
  mk (pk self) (invoice self) (quantity self) (unit_price self)
     (discount_amount self) v.
End InvoiceItem.

Module ContractChangeRequest.
Record t := mk {
  contract : option nat;
  child : option nat;
  request_type : string;
  subject : option nat;
  estimated_monthly_change : option Decimal
}.

Definition set_estimated_monthly_change (v : option Decimal) (self : t) : t :=
  mk (contract self) (child self) (request_type self) (subject self) v.
End ContractChangeRequest.

(** ** The database *)

Record DB := mkDB {
  price_lists : list PriceList.t;
  discounts : list Discount.t;
  contract_items : list ContractItem.t;
  contract_item_discounts : list ContractItemDiscount.t;
  invoices : list Invoice.t;
  invoice_items : list InvoiceItem.t
}.

Definition set_contract_items (l : list ContractItem.t) (db : DB) : DB :=
  mkDB (price_lists db) (discounts db) l (contract_item_discounts db)
       (invoices db) (invoice_items db).

Definition set_invoices (l : list Invoice.t) (db : DB) : DB :=
  mkDB (price_lists db) (discounts db) (contract_items db)
       (contract_item_discounts db) l (invoice_items db).

Definition set_invoice_items (l : list InvoiceItem.t) (db : DB) : DB :=
  mkDB (price_lists db) (discounts db) (contract_items db)
       (contract_item_discounts db) (invoices db) l.

(** Exceptions the methods can let escape. *)
Inductive Exc :=
| DoesNotExist
| MultipleObjectsReturned
| DatabaseError.

Inductive Result (A : Type) :=
| Ok (a : A)
| Raise (e : Exc).
Arguments Ok {A} a.
Arguments Raise {A} e.

(** ** Query sets *)

Section QuerySet.

Context {A : Type}.

(** [order_by("-key")]: greatest key first.  Rows with equal keys stay in
    table order; the database promises no order among them, and nothing
    below depends on it. *)
Fixpoint insert_desc (key : A -> Z) (x : A) (l : list A) : list A :=
  match l with
  | [] => [x]
  | y :: t => if key y <=? key x then x :: y :: t
              else y :: insert_desc key x t
  end.

Definition order_by_desc (key : A -> Z) (l : list A) : list A :=
  fold_right (insert_desc key) [] l.

(** [.first()] *)
Definition first (l : list A) : option A := hd_error l.

(** [.count()] *)
Definition count (l : list A) : Z := Z.of_nat (List.length l).

(** [.get(...)] on the rows that pass the lookup. *)
Definition get (l : list A) : Result A :=
  match l with
  | [] => Raise DoesNotExist
  | [x] => Ok x
  | _ :: _ :: _ => Raise MultipleObjectsReturned
  end.

(** [Model.save()] of an instance with primary key [k]: the row with that
    key is overwritten, and the instance is inserted when there is none. *)
Definition upsert (pk : A -> nat) (self : A) (rows : list A) : list A :=
  if existsb (fun r => Nat.eqb (pk r) (pk self)) rows
  then map (fun r => if Nat.eqb (pk r) (pk self) then self else r) rows
  else rows ++ [self].

End QuerySet.


(** ** [Subject.current_price] (lessons/models.py)

    [PriceList.objects.filter(subject=self, valid_from__lte=date.today(),
    is_active=True).order_by("-valid_from").first()], then the price of the
    row found, or [None].  A model instance is always true in a condition,
    so the conditional expression only tests for [None]. *)

Definition price_list_lookup (today : date) (subject : nat) (p : PriceList.t) : bool :=
  Nat.eqb (PriceList.subject p) subject
  && (PriceList.valid_from p <=? today)
  && PriceList.is_active p.

Definition current_price (today : date) (db : DB) (self : nat) : option Decimal :=
  let current_price :=
    first (order_by_desc PriceList.valid_from
             (filter (price_list_lookup today self) (price_lists db))) in
  match current_price with
  | Some row => Some (PriceList.price_per_hour row)
  | None => None
  end.

(** ** [ContractItem] *)

(** [self.contract.items.filter(is_active=True)] *)
Definition active_items (db : DB) (contract : nat) : list ContractItem.t :=
  filter (fun i => Nat.eqb (ContractItem.contract i) contract && ContractItem.is_active i)
         (contract_items db).

(** The filter of [calculate_discounts] on the discount table. *)
Definition discount_lookup (today : date) (d : Discount.t) : bool :=
  Discount.is_active d
  && (Discount.valid_from d <=? today)
  && match Discount.valid_to d with
     | None => true
     | Some t => today <=? t
     end.

(** [discount.min_subjects and subjects_count < discount.min_subjects], and
    the same with [max_subjects] and [>]: the left operand is a nullable
    integer, false when it is [None] or [0], and only when it is true is the
    comparison evaluated. *)
Definition bound_and (cmp : Z -> Z -> bool) (subjects_count : Z) (bound : option Z) : bool :=
  int_truthy bound
  && match bound with
     | Some b => cmp subjects_count b
     | None => false
     end.

(** The amount one discount contributes. *)
Definition discount_amount_of (base_price : Decimal) (discount : Discount.t) : Decimal :=
  if DiscountType.is_percentage (Discount.discount_type discount)
  then (base_price * Discount.value discount / 100)%Q
  else Discount.value discount.

(** One turn of the loop of [calculate_discounts]; the two [continue]s
    leave the running total as it is. *)
Definition discount_step (subjects_count : Z) (base_price : Decimal)
    (total_discount : Decimal) (discount : Discount.t) : Decimal :=
  if bound_and Z.ltb subjects_count (Discount.min_subjects discount) then total_discount
  else if bound_and Z.gtb subjects_count (Discount.max_subjects discount) then total_discount
  else (total_discount + discount_amount_of base_price discount)%Q.

(** The discount query set is iterated in the model's default ordering,
    [-valid_from]. *)
Definition calculate_discounts (today : date) (db : DB) (self : ContractItem.t) : Decimal :=
  let subjects_count := count (active_items db (ContractItem.contract self)) in
  let applicable_discounts :=
    order_by_desc Discount.valid_from (filter (discount_lookup today) (discounts db)) in
  fold_left (discount_step subjects_count (ContractItem.base_price self))
            applicable_discounts 0%Q.

(** [self.save()] up to the write: the row gets the values handed over.
    [ContractItem_save_written] below is the save with the write as the
    columns perform it. *)
Definition ContractItem_save (self : ContractItem.t) (db : DB) : DB :=
  set_contract_items (upsert ContractItem.pk self (contract_items db)) db.

Definition update_final_price (today : date) (self : ContractItem.t) (db : DB)
    : ContractItem.t * DB :=
  let discount_amount := calculate_discounts today db self in
  let self' :=
    ContractItem.set_final_price
      (py_max (ContractItem.base_price self - discount_amount)%Q 0%Q) self in
  (self', ContractItem_save self' db).

(** ** [Invoice] and [InvoiceItem] *)

Definition is_overdue (today : date) (self : Invoice.t) : bool :=
  negb (String.eqb (Invoice.status self) "paid") && (Invoice.due_date self <? today).

Definition days_overdue (today : date) (self : Invoice.t) : Z :=
  if is_overdue today self then today - Invoice.due_date self else 0.

(** [self.items.all()] *)
Definition items_all (db : DB) (self : Invoice.t) : list InvoiceItem.t :=
  filter (fun i => Nat.eqb (InvoiceItem.invoice i) (Invoice.pk self)) (invoice_items db).

(** [save(update_fields=[...])] writes the three columns of the row with the
    instance's key, and raises [DatabaseError] when no row has it.  This is
    the method up to the write; [calculate_totals_written] below is the
    method with the write as the columns perform it. *)
Definition calculate_totals (self : Invoice.t) (db : DB) : Result (Invoice.t * DB) :=
  let subtotal := py_sum (map InvoiceItem.total_amount (items_all db self)) in
  let total_discount := py_sum (map InvoiceItem.discount_amount (items_all db self)) in
  let total_amount := (subtotal - total_discount)%Q in
  let self' := Invoice.set_totals subtotal total_discount total_amount self in
  if existsb (fun r => Nat.eqb (Invoice.pk r) (Invoice.pk self)) (invoices db)
  then Ok (self',
           set_invoices
             (map (fun r => if Nat.eqb (Invoice.pk r) (Invoice.pk self)
                            then Invoice.set_totals subtotal total_discount total_amount r
                            else r)
                  (invoices db))
             db)
  else Raise DatabaseError.

(** [InvoiceItem.save()] up to the write: the total is assigned to the
    instance and the row gets the values handed over.
    [InvoiceItem_save_written] below is the save with the write as the
    columns perform it. *)
Definition InvoiceItem_save (self : InvoiceItem.t) (db : DB) : InvoiceItem.t * DB :=
  let self' :=
    InvoiceItem.set_total_amount
      (InvoiceItem.quantity self * InvoiceItem.unit_price self
       - InvoiceItem.discount_amount self)%Q self in
  (self', set_invoice_items (upsert InvoiceItem.pk self' (invoice_items db)) db).

(** ** [ContractChangeRequest.calculate_estimated_change]

    The method assigns to the instance and does not save.  In the
    [add_subject] branch the count of active items is read into a local
    that nothing uses.  [DoesNotExist] from [get] is caught;
    [MultipleObjectsReturned] escapes. *)

Definition remove_lookup (contract child subject : nat) (i : ContractItem.t) : bool :=
  Nat.eqb (ContractItem.contract i) contract
  && Nat.eqb (ContractItem.child i) child
  && Nat.eqb (ContractItem.subject i) subject
  && ContractItem.is_active i.

Definition calculate_estimated_change (today : date) (self : ContractChangeRequest.t)
    (db : DB) : Result ContractChangeRequest.t :=
  match String.eqb (ContractChangeRequest.request_type self) "add_subject",
        ContractChangeRequest.subject self with
  | true, Some subject =>
      match current_price today db subject with
      | Some current_price =>
          if decimal_truthy current_price
          then Ok (ContractChangeRequest.set_estimated_monthly_change
                     (Some current_price) self)
          else Ok self
      | None => Ok self
      end
  | _, _ =>
      if String.eqb (ContractChangeRequest.request_type self) "remove_subject" then
        match ContractChangeRequest.contract self,
              ContractChangeRequest.child self,
              ContractChangeRequest.subject self with
        | Some contract, Some child, Some subject =>
            match get (filter (remove_lookup contract child subject) (contract_items db)) with
            | Ok item =>
                Ok (ContractChangeRequest.set_estimated_monthly_change
                      (Some (- ContractItem.final_price item)%Q) self)
            | Raise DoesNotExist =>
                Ok (ContractChangeRequest.set_estimated_monthly_change (Some 0%Q) self)
            | Raise e => Raise e
            end
        | _, _, _ => Ok self
        end
      else Ok self
  end.


(** ** [Contract.total_monthly_amount]

    [sum(item.final_price for item in self.items.filter(is_active=True))];
    [self] is the key of the contract. *)

Definition total_monthly_amount (db : DB) (self : nat) : Decimal :=
  py_sum (map ContractItem.final_price (active_items db self)).

(** ** Admin actions (contracts/admin.py)

    An action receives a query set, a condition on the rows of one table
    that is evaluated when the action iterates it or updates through it.
    What an action reports with [message_user] is the number it returns. *)



Definition ContractItem_set_is_active (v : bool) (self : ContractItem.t) : ContractItem.t :=
  ContractItem.mk (ContractItem.pk self) (ContractItem.contract self)
                  (ContractItem.child self) (ContractItem.subject self)
                  (ContractItem.base_price self) (ContractItem.final_price self) v.

(** [queryset.update(...)]: every row of the query set is rewritten in the
    table, and the number of rows matched is returned. *)
Definition queryset_update {A : Type} (change : A -> A) (queryset : A -> bool)
    (rows : list A) : Z * list A :=
  (count (filter queryset rows),
   map (fun r => if queryset r then change r else r) rows).

(** [ContractItemAdmin.activate_items] and [deactivate_items]:
    [queryset.update(is_active=True)] and [queryset.update(is_active=False)]. *)
Definition activate_items (queryset : ContractItem.t -> bool) (db : DB) : Z * DB :=
  let updated := queryset_update (ContractItem_set_is_active true) queryset
                                 (contract_items db) in
  (fst updated, set_contract_items (snd updated) db).

Definition deactivate_items (queryset : ContractItem.t -> bool) (db : DB) : Z * DB :=
  let updated := queryset_update (ContractItem_set_is_active false) queryset
                                 (contract_items db) in
  (fst updated, set_contract_items (snd updated) db).

Definition Invoice_set_status (v : string) (self : Invoice.t) : Invoice.t :=
  Invoice.mk (Invoice.pk self) (Invoice.subtotal self) (Invoice.total_discount self)
             (Invoice.total_amount self) v (Invoice.due_date self).

(** [InvoiceAdmin.mark_as_sent]: [queryset.update(status="sent")]. *)
Definition mark_as_sent (queryset : Invoice.t -> bool) (db : DB) : Z * DB :=
  let updated := queryset_update (Invoice_set_status "sent") queryset (invoices db) in
  (fst updated, set_invoices (snd updated) db).

(** [InvoiceAdmin.mark_as_paid]:
    [queryset.update(status="paid", paid_date=date.today())]; the column
    [paid_date] is not among those of the record. *)
Definition mark_as_paid (queryset : Invoice.t -> bool) (db : DB) : Z * DB :=
  let updated := queryset_update (Invoice_set_status "paid") queryset (invoices db) in
  (fst updated, set_invoices (snd updated) db).

(** ** [Debt]

    The debt table is a state of its own: no method of the other models
    reads or writes it. *)

Module Debt.
Record t := mk {
  pk : nat;
  invoice : nat;
  original_amount : Decimal;
  remaining_amount : Decimal;
  due_date : date;
  overdue_since : option date;
  is_resolved : bool;
  resolved_date : option date;
  late_fee_applied : Decimal
}.
End Debt.

(** [Debt.days_overdue]: a date is always true in a condition, so the test
    is for [None]; [.days] of a difference of dates is the difference of
    the ordinals. *)
Definition Debt_days_overdue (today : date) (self : Debt.t) : Z :=
  match Debt.overdue_since self with
  | Some since => today - since
  | None => 0
  end.

Definition Debt_mark_as_resolved (today : date) (self : Debt.t) (debts : list Debt.t)
    : Debt.t * list Debt.t :=
  let self' :=
    Debt.mk (Debt.pk self) (Debt.invoice self) (Debt.original_amount self) 0%Q
            (Debt.due_date self) (Debt.overdue_since self) true (Some today)
            (Debt.late_fee_applied self) in
  (self', upsert Debt.pk self' debts).

(** [DebtAdmin.mark_as_resolved]: the loop over the query set. *)
Definition DebtAdmin_mark_as_resolved (today : date) (queryset : Debt.t -> bool)
    (debts : list Debt.t) : Z * list Debt.t :=
  fold_left (fun (state : Z * list Debt.t) (debt : Debt.t) =>
               (fst state + 1, snd (Debt_mark_as_resolved today debt (snd state))))
            (filter queryset debts) (0, debts).


(** ** [Group] (lessons/models.py)

    The enrollment table is a state of its own, read by the properties of
    a group. *)

Module Group.
Record t := mk {
  pk : nat;
  subject : nat;
  group_type : string;
  max_students : Z;
  is_active : bool
}.
End Group.

Module GroupEnrollment.
Record t := mk {
  pk : nat;
  child : nat;
  group : nat;
  contract_item : nat;
  status : string
}.
End GroupEnrollment.

(** [Group.clean]: an individual group is cut down to one student; nothing
    is raised. *)
Definition Group_clean (self : Group.t) : Group.t :=
  if String.eqb (Group.group_type self) "individual" && (Group.max_students self >? 1)
  then Group.mk (Group.pk self) (Group.subject self) (Group.group_type self) 1
                (Group.is_active self)
  else self.

(** [self.groupenrollment_set.filter(status="active").count()] *)
Definition current_enrollment_count (enrollments : list GroupEnrollment.t)
    (self : Group.t) : Z :=
  count (filter (fun e => Nat.eqb (GroupEnrollment.group e) (Group.pk self)
                          && String.eqb (GroupEnrollment.status e) "active")
                enrollments).

Definition available_spots (enrollments : list GroupEnrollment.t) (self : Group.t) : Z :=
  Group.max_students self - current_enrollment_count enrollments self.

Definition is_full (enrollments : list GroupEnrollment.t) (self : Group.t) : bool :=
  available_spots enrollments self <=? 0.


(** ** [Schedule.end_time] (lessons/models.py) and the [addtime] filter
    (clients/templatetags/client_extras.py)

    A [datetime.time] is the number of microseconds since midnight, from 0
    up to a day; a [datetime.datetime] is a date and a time; a
    [datetime.timedelta] is a number of microseconds.  The two operations
    of the library that can fail raise [OverflowError]:
    [timedelta(minutes=m)] when it spans more than 999999999 days, and
    [datetime + timedelta] when the date leaves the years 1 to 9999. *)

Definition time := Z.

Definition day_us : Z := 86400000000.

Definition MAXORDINAL : Z := 3652059.

Record datetime := mk_datetime {
  dt_date : date;
  dt_time : time
}.

Inductive Overflow (A : Type) :=
| Returned (a : A)
| OverflowError.
Arguments Returned {A} a.
Arguments OverflowError {A}.

Definition combine (d : date) (t : time) : datetime := mk_datetime d t.

Definition timedelta_minutes (minutes : Z) : Overflow Z :=
  let us := minutes * 60000000 in
  if (-999999999 <=? us / day_us) && (us / day_us <=? 999999999)
  then Returned us
  else OverflowError.

Definition datetime_add (dt : datetime) (delta : Z) : Overflow datetime :=
  let us := dt_time dt + delta in
  let d := dt_date dt + us / day_us in
  if (0 <? d) && (d <=? MAXORDINAL)
  then Returned (mk_datetime d (us mod day_us))
  else OverflowError.

Module Schedule.
Record t := mk {
  pk : nat;
  group : nat;
  weekday : Z;
  start_time : time;
  duration : Z
}.
End Schedule.

Definition end_time (today : date) (self : Schedule.t) : Overflow time :=
  let start_datetime := combine today (Schedule.start_time self) in
  match timedelta_minutes (Schedule.duration self) with
  | Returned delta =>
      match datetime_add start_datetime delta with
      | Returned end_datetime => Returned (dt_time end_datetime)
      | OverflowError => OverflowError
      end
  | OverflowError => OverflowError
  end.

(** [addtime]: a time is always true in a condition, so [not time_obj] is
    the test for [None]; [not duration] holds for [None] and for 0. *)
Definition addtime (today : date) (time_obj : option time) (duration : option Z)
    : Overflow (option time) :=
  match time_obj, duration with
  | Some t, Some minutes =>
      if minutes =? 0 then Returned time_obj
      else
        let dt := combine today t in
        match timedelta_minutes minutes with
        | Returned delta =>
            match datetime_add dt delta with
            | Returned dt_new => Returned (Some (dt_time dt_new))
            | OverflowError => OverflowError
            end
        | OverflowError => OverflowError
        end
  | _, _ => Returned time_obj
  end.


(** ** Callers of [Contract.total_monthly_amount] *)

Module Contract.
Record t := mk {
  pk : nat;
  parent : nat;
  payment_type : string;
  status : string;
  start_date : date;
  end_date : date
}.
End Contract.

(** [Contract.is_sepa_client] *)
Definition is_sepa_client (self : Contract.t) : bool :=
  String.eqb (Contract.payment_type self) "sepa".

(** The monthly total of the parent dashboard
    ([ParentDashboardView.get_context_data], clients/views.py):
    [sum(contract.total_monthly_amount or 0 for contract in active_contracts)]
    over [Contract.objects.filter(parent=user, status="active")]. *)
Definition total_monthly (db : DB) (contracts : list Contract.t) (user : nat) : Decimal :=
  let active_contracts :=
    filter (fun c => Nat.eqb (Contract.parent c) user
                     && String.eqb (Contract.status c) "active")
           contracts in
  py_sum (map (fun contract =>
                 if decimal_truthy (total_monthly_amount db (Contract.pk contract))
                 then total_monthly_amount db (Contract.pk contract)
                 else 0%Q)
              active_contracts).

(** The exceptions that [ContractAdmin.get_monthly_total] catches. *)
Inductive Caught :=
| ValueError
| TypeError
| AttributeError.

(** Calling a number: neither a [Decimal] nor the [int] 0 of an empty sum
    is callable, and the call raises [TypeError]. *)
Definition call_number (value : Decimal) : Decimal + Caught := inr TypeError.

Section MonthlyTotalColumn.

(** The text of an amount, [f"{float(total):.2f}€"], and the coloured
    [<span>] that [format_html] builds around it; neither is modelled. *)
Variable format_amount : Decimal -> string.
Variable format_span : string -> Decimal -> string.

(** [ContractAdmin.get_monthly_total] (contracts/admin.py):
    [obj.total_monthly_amount] reads the property, and the parentheses
    after it call the number it returns. *)
Definition get_monthly_total (db : DB) (obj : Contract.t) : string :=
  match call_number (total_monthly_amount db (Contract.pk obj)) with
  | inl total =>
      if String.eqb (Contract.payment_type obj) "sepa"
      then format_span "green" total
      else if String.eqb (Contract.payment_type obj) "jobcenter"
           then format_span "blue" total
           else format_amount total
  | inr ValueError => "0.00€"
  | inr TypeError => "0.00€"
  | inr AttributeError => "0.00€"
  end.

End MonthlyTotalColumn.


(** ** Decimal columns

    The database is PostgreSQL ([DATABASES] in settings.py), and every
    [DecimalField(max_digits, decimal_places)] is a column
    [numeric(max_digits, decimal_places)].  A [save()] hands each decimal
    of the instance to its column as it is; the column stores it rounded to
    [decimal_places] places, ties away from zero, and the statement fails
    with [DataError], writing nothing, when the rounded value needs more
    than [max_digits] digits.  The instance keeps the value it was
    assigned.

    The methods above are embedded up to this write: their tables hold the
    value that was handed over.  The definitions of this section give the
    same methods with the write as the columns perform it. *)

Inductive Written (A : Type) :=
| Stored (a : A)
| DataError.
Arguments Stored {A} a.
Arguments DataError {A}.

(** The nearest integer, a tie going away from zero. *)
Definition round_half_away (v : Decimal) : Z :=
  if Qle_bool 0 v
  then Qfloor (v + (1 # 2))
  else - Qfloor (- v + (1 # 2)).

Definition numeric (max_digits decimal_places : Z) (v : Decimal) : Written Decimal :=
  let scale := 10 ^ decimal_places in
  let units := round_half_away (v * inject_Z scale) in
  if Z.abs units <? 10 ^ max_digits
  then Stored (units # Z.to_pos scale)
  else DataError.

(** The row that the columns of [ContractItem] make of an instance:
    [base_price] and [final_price] are [DecimalField(8, 2)]. *)
Definition ContractItem_row (self : ContractItem.t) : Written ContractItem.t :=
  match numeric 8 2 (ContractItem.base_price self),
        numeric 8 2 (ContractItem.final_price self) with
  | Stored base_price, Stored final_price =>
      Stored (ContractItem.mk (ContractItem.pk self) (ContractItem.contract self)
                              (ContractItem.child self) (ContractItem.subject self)
                              base_price final_price (ContractItem.is_active self))
  | _, _ => DataError
  end.

(** [ContractItem.save()] as the database performs it. *)
Definition ContractItem_save_written (self : ContractItem.t) (db : DB) : Written DB :=
  match ContractItem_row self with
  | Stored row => Stored (ContractItem_save row db)
  | DataError => DataError
  end.

(** [update_final_price] with that save: the instance is assigned the exact
    value, and the row gets what the columns make of the instance. *)
Definition update_final_price_written (today : date) (self : ContractItem.t) (db : DB)
    : Written (ContractItem.t * DB) :=
  let self' := fst (update_final_price today self db) in
  match ContractItem_save_written self' db with
  | Stored db' => Stored (self', db')
  | DataError => DataError
  end.

(** The row that the columns of [InvoiceItem] make of an instance:
    [quantity] is [DecimalField(6, 2)], the three amounts are
    [DecimalField(8, 2)]. *)
Definition InvoiceItem_row (self : InvoiceItem.t) : Written InvoiceItem.t :=
  match numeric 6 2 (InvoiceItem.quantity self),
        numeric 8 2 (InvoiceItem.unit_price self),
        numeric 8 2 (InvoiceItem.discount_amount self),
        numeric 8 2 (InvoiceItem.total_amount self) with
  | Stored quantity, Stored unit_price, Stored discount_amount, Stored total_amount =>
      Stored (InvoiceItem.mk (InvoiceItem.pk self) (InvoiceItem.invoice self)
                             quantity unit_price discount_amount total_amount)
  | _, _, _, _ => DataError
  end.

(** [InvoiceItem.save()] as the database performs it. *)
Definition InvoiceItem_save_written (self : InvoiceItem.t) (db : DB)
    : Written (InvoiceItem.t * DB) :=
  let self' := fst (InvoiceItem_save self db) in
  match InvoiceItem_row self' with
  | Stored row =>
      Stored (self', set_invoice_items (upsert InvoiceItem.pk row (invoice_items db)) db)
  | DataError => DataError
  end.

(** [Invoice.calculate_totals()] as the database performs it: the three
    totals are [DecimalField(10, 2)]; the values of the statement are
    converted before any row is looked for, and with values that fit
    [save(update_fields=[...])] raises [DatabaseError] when no row has the
    key. *)
Definition calculate_totals_written (self : Invoice.t) (db : DB)
    : Written (Result (Invoice.t * DB)) :=
  let subtotal := py_sum (map InvoiceItem.total_amount (items_all db self)) in
  let total_discount := py_sum (map InvoiceItem.discount_amount (items_all db self)) in
  let total_amount := (subtotal - total_discount)%Q in
  let self' := Invoice.set_totals subtotal total_discount total_amount self in
  match numeric 10 2 subtotal, numeric 10 2 total_discount, numeric 10 2 total_amount with
  | Stored s, Stored d, Stored a =>
      Stored
        (if existsb (fun r => Nat.eqb (Invoice.pk r) (Invoice.pk self)) (invoices db)
         then Ok (self',
                  set_invoices
                    (map (fun r => if Nat.eqb (Invoice.pk r) (Invoice.pk self)
                                   then Invoice.set_totals s d a r
                                   else r)
                         (invoices db))
                    db)
         else Raise DatabaseError)
  | _, _, _ => DataError
  end.


(** * Vocabulary of the properties *)

(** The sum of a list of decimals. *)
Definition Qsum (l : list Decimal) : Decimal := fold_right Qplus 0%Q l.

(** The head of a list is on top when every other row has a key no greater. *)
Definition on_top {A : Type} (key : A -> Z) (l : list A) : Prop :=
  match l with
  | [] => True
  | h :: t => Forall (fun y => key y <= key h) t
  end.

(** A price record counts for a subject on a day when it belongs to the
    subject, is active, and its validity has started. *)
Definition eligible (today : date) (subject : nat) (r : PriceList.t) : Prop :=
  PriceList.subject r = subject
  /\ PriceList.is_active r = true
  /\ PriceList.valid_from r <= today.

(** The price list of scenario A: subject 1 at 20 from 2024-01-01 and at 25
    from 2024-06-01. *)
Definition mathematik_prices : DB :=
  mkDB [ PriceList.mk 1 1 20 (Date.ymd 2024 1 1) None true;
         PriceList.mk 2 1 25 (Date.ymd 2024 6 1) None true ]
       [] [] [] [] [].


(** *** Discount rules *)

(** The rule condition as stated: the rule is active, its validity window
    holds the day, and each subject bound that is set admits the count. *)
Definition stated_applicable (today : date) (n : Z) (d : Discount.t) : bool :=
  Discount.is_active d
  && (Discount.valid_from d <=? today)
  && match Discount.valid_to d with
     | None => true
     | Some t => t >=? today
     end
  && match Discount.min_subjects d with
     | None => true
     | Some m => m <=? n
     end
  && match Discount.max_subjects d with
     | None => true
     | Some m => n <=? m
     end.

(** The same condition with a bound of 0 counted as not set. *)
Definition applied (today : date) (n : Z) (d : Discount.t) : bool :=
  Discount.is_active d
  && (Discount.valid_from d <=? today)
  && match Discount.valid_to d with
     | None => true
     | Some t => t >=? today
     end
  && match Discount.min_subjects d with
     | None => true
     | Some m => (m =? 0) || (m <=? n)
     end
  && match Discount.max_subjects d with
     | None => true
     | Some m => (m =? 0) || (n <=? m)
     end.

(** The sum of the amounts of the rules of the table that pass a condition,
    for an item of a contract with [n] active items. *)
Definition discount_total (cond : Z -> Discount.t -> bool) (db : DB)
    (self : ContractItem.t) : Decimal :=
  Qsum (map (discount_amount_of (ContractItem.base_price self))
            (filter (cond (count (active_items db (ContractItem.contract self))))
                    (discounts db))).

(** A bound of 0 replaced by no bound. *)
Definition unset_zero (bound : option Z) : option Z :=
  match bound with
  | Some 0 => None
  | _ => bound
  end.

Definition unset_zero_bounds (d : Discount.t) : Discount.t :=
  Discount.mk (Discount.pk d) (Discount.discount_type d) (Discount.value d)
              (Discount.valid_from d) (Discount.valid_to d) (Discount.is_active d)
              (unset_zero (Discount.min_subjects d))
              (unset_zero (Discount.max_subjects d))
              (Discount.applies_to_family d).

Definition set_discounts (l : list Discount.t) (db : DB) : DB :=
  mkDB (price_lists db) l (contract_items db) (contract_item_discounts db)
       (invoices db) (invoice_items db).

(** The step of the loop skips no rule that the bounds admit. *)
Definition admitted (n : Z) (d : Discount.t) : bool :=
  negb (bound_and Z.ltb n (Discount.min_subjects d))
  && negb (bound_and Z.gtb n (Discount.max_subjects d)).

(** An instance is in step with the table when its row is there and every
    row with its key has its contract and its active flag: it was loaded
    from the table, whatever was assigned to its prices since. *)
Definition in_step (db : DB) (self : ContractItem.t) : Prop :=
  (exists r, In r (contract_items db) /\ ContractItem.pk r = ContractItem.pk self)
  /\ forall r, In r (contract_items db) ->
               ContractItem.pk r = ContractItem.pk self ->
               ContractItem.contract r = ContractItem.contract self
               /\ ContractItem.is_active r = ContractItem.is_active self.

(** *** Scenarios *)

Definition percentage : DiscountType.t := DiscountType.mk true true.
Definition absolute : DiscountType.t := DiscountType.mk false true.

(** A rule in force from day 1 on, with the given type, value and bounds. *)
Definition rule (pk : nat) (ty : DiscountType.t) (value : Decimal)
    (min_subjects max_subjects : option Z) : Discount.t :=
  Discount.mk pk ty value 1 None true min_subjects max_subjects false.

(** An active item of contract 1 with the given base price, stored with a
    final price equal to it. *)
Definition item (pk : nat) (base_price : Decimal) : ContractItem.t :=
  ContractItem.mk pk 1 1 pk base_price base_price true.

Definition catalog (rules : list Discount.t) (items : list ContractItem.t) : DB :=
  mkDB [] rules items [] [] [].


(** *** Contract items and invoices *)

(** The [unique_together] constraint of [ContractItem]: no two rows share
    contract, child and subject. *)
Definition unique_together (db : DB) : Prop :=
  NoDup (map (fun i => (ContractItem.contract i, ContractItem.child i,
                        ContractItem.subject i))
             (contract_items db)).

(** A change request to remove a subject of a child from a contract. *)
Definition remove_request (contract child subject : nat) : ContractChangeRequest.t :=
  ContractChangeRequest.mk (Some contract) (Some child) "remove_subject"
                           (Some subject) None.

(** The amount of an invoice line before its discount. *)
Definition amount_before_discount (i : InvoiceItem.t) : Decimal :=
  (InvoiceItem.quantity i * InvoiceItem.unit_price i)%Q.

(** A draft invoice with key 1, and a line of it: one unit at 10 with a
    discount of 2, its total not yet computed. *)
Definition draft_invoice : Invoice.t := Invoice.mk 1 0 0 0 "draft" 10.
Definition discounted_line : InvoiceItem.t := InvoiceItem.mk 1 1 1 10 2 0.
Definition billing (lines : list InvoiceItem.t) : DB :=
  mkDB [] [] [] [] [draft_invoice] lines.


(** *** Tables and admin actions *)

(** The primary-key constraint of a table: no two rows share a key. *)
Definition primary_key {A : Type} (pk : A -> nat) (rows : list A) : Prop :=
  NoDup (map pk rows).


(** The query set of the items whose key is among the selected ones. *)
Definition by_keys (selected : list nat) (r : ContractItem.t) : bool :=
  existsb (Nat.eqb (ContractItem.pk r)) selected.

(** Two items of contract 1, of 20 and of 30, under a rule of 10 percent. *)
Definition two_items : DB :=
  catalog [rule 1 percentage 10 None None] [item 1 20; item 2 30].


(** A change request to add a subject, with no contract or child given. *)
Definition add_request (subject : nat) : ContractChangeRequest.t :=
  ContractChangeRequest.mk None None "add_subject" (Some subject) None.


(** *** Times *)

(** A time of day: hours, minutes and seconds as microseconds since
    midnight. *)
Definition hms (h m s : Z) : time := ((h * 60 + m) * 60 + s) * 1000000.

(** A value of [datetime.time]. *)
Definition valid_time (t : time) : Prop := 0 <= t < day_us.

(** A value of [datetime.date]. *)
Definition valid_date (d : date) : Prop := 1 <= d <= MAXORDINAL.


(** *** Columns that are not read *)

Definition set_price_lists (l : list PriceList.t) (db : DB) : DB :=
  mkDB l (discounts db) (contract_items db) (contract_item_discounts db)
       (invoices db) (invoice_items db).

Definition PriceList_set_valid_to (v : option date) (r : PriceList.t) : PriceList.t :=
  PriceList.mk (PriceList.pk r) (PriceList.subject r) (PriceList.price_per_hour r)
               (PriceList.valid_from r) v (PriceList.is_active r).

(** A rule with another active flag of its type and another family flag. *)
Definition Discount_set_flags (type_active family : bool) (d : Discount.t) : Discount.t :=
  Discount.mk (Discount.pk d)
              (DiscountType.mk (DiscountType.is_percentage (Discount.discount_type d))
                               type_active)
              (Discount.value d) (Discount.valid_from d) (Discount.valid_to d)
              (Discount.is_active d) (Discount.min_subjects d) (Discount.max_subjects d)
              family.


(** *** Invoice totals as columns *)

(** The three totals that [calculate_totals] computes fit their columns. *)
Definition totals_fit (db : DB) (self : Invoice.t) : Prop :=
  numeric 10 2 (py_sum (map InvoiceItem.total_amount (items_all db self)))
  <> DataError
  /\ numeric 10 2 (py_sum (map InvoiceItem.discount_amount (items_all db self)))
     <> DataError
  /\ numeric 10 2 (py_sum (map InvoiceItem.total_amount (items_all db self))
                   - py_sum (map InvoiceItem.discount_amount (items_all db self)))
     <> DataError.

(** The database a write leaves, or the one given when the write raised. *)
Definition written_db {A : Type} (w : Written (A * DB)) (otherwise : DB) : DB :=
  match w with
  | Stored (_, db) => db
  | DataError => otherwise
  end.

(** 101 lines of the draft invoice, one unit at 999999.99 each. *)
Definition many_lines : list InvoiceItem.t :=
  map (fun k => InvoiceItem.mk k 1 1 (99999999 # 100) 0 (99999999 # 100)) (seq 1 101).

(** The draft invoice with two lines as [InvoiceItem.save] writes them: one
    unit at 10 with a discount of 2, and 0.33 units at 0.33. *)
Definition saved_lines : DB :=
  written_db
    (InvoiceItem_save_written (InvoiceItem.mk 2 1 (33 # 100) (33 # 100) 0 0)
       (written_db (InvoiceItem_save_written discounted_line (billing [])) (billing [])))
    (billing []).


(** * Properties *)

(** ** Decimals *)


Lemma Qlt_bool_iff (a b : Decimal) : Qlt_bool a b = true <-> (a < b)%Q.
Proof.
  unfold Qlt_bool. rewrite negb_true_iff.
  split; intro H.
  - apply Qnot_le_lt. intro Hle. apply Qle_bool_iff in Hle. congruence.
  - destruct (Qle_bool b a) eqn:E; [|reflexivity].
    apply Qle_bool_iff in E. exfalso. exact (Qlt_not_le _ _ H E).
Qed.

Lemma py_max_spec (a b : Decimal) : (py_max a b == Qmax a b)%Q.
Proof.
  unfold py_max. destruct (Qlt_bool a b) eqn:E.
  - apply Qlt_bool_iff in E. symmetry. apply Q.max_r. apply Qlt_le_weak; exact E.
  - symmetry. apply Q.max_l.
    destruct (Qlt_le_dec a b) as [Hlt|Hle]; [|exact Hle].
    apply Qlt_bool_iff in Hlt. congruence.
Qed.

Lemma fold_left_Qplus_acc (l : list Decimal) (acc : Decimal) :
  (fold_left Qplus l acc == acc + Qsum l)%Q.
Proof.
  revert acc. induction l as [|x l IH]; intros acc; simpl.
  - ring.
  - rewrite IH. ring.
Qed.

Lemma py_sum_Qsum (l : list Decimal) : (py_sum l == Qsum l)%Q.
Proof. unfold py_sum. rewrite fold_left_Qplus_acc. ring. Qed.

Lemma Qsum_nonneg (l : list Decimal) :
  Forall (fun x => (0 <= x)%Q) l -> (0 <= Qsum l)%Q.
Proof.
  induction 1 as [|x l Hx _ IH]; simpl.
  - apply Qle_refl.
  - replace 0%Q with (0 + 0)%Q by reflexivity. apply Qplus_le_compat; assumption.
Qed.

(** ** Query sets *)

Section QuerySetFacts.

Context {A : Type} (key : A -> Z).

Lemma insert_desc_perm (x : A) (l : list A) :
  Permutation (insert_desc key x l) (x :: l).
Proof.
  induction l as [|y t IH]; simpl.
  - apply Permutation_refl.
  - destruct (key y <=? key x).
    + apply Permutation_refl.
    + eapply perm_trans; [apply perm_skip, IH | apply perm_swap].
Qed.

Lemma order_by_desc_perm (l : list A) : Permutation (order_by_desc key l) l.
Proof.
  induction l as [|x l IH]; simpl.
  - constructor.
  - eapply perm_trans; [apply insert_desc_perm | apply perm_skip, IH].
Qed.

Lemma order_by_desc_In (l : list A) (x : A) : In x (order_by_desc key l) <-> In x l.
Proof.
  split; apply Permutation_in;
    [apply order_by_desc_perm | apply Permutation_sym, order_by_desc_perm].
Qed.


Lemma insert_desc_on_top (x : A) (l : list A) :
  on_top key l -> on_top key (insert_desc key x l).
Proof.
  destruct l as [|y t]; simpl; intros H.
  - constructor.
  - destruct (key y <=? key x) eqn:E.
    + apply Z.leb_le in E. constructor; [exact E|].
      eapply Forall_impl; [|exact H]. simpl. intros; lia.
    + apply Z.leb_gt in E.
      apply (Permutation_Forall (Permutation_sym (insert_desc_perm x t))).
      constructor; [lia | exact H].
Qed.

Lemma order_by_desc_on_top (l : list A) : on_top key (order_by_desc key l).
Proof.
  induction l as [|x l IH]; simpl.
  - exact I.
  - apply insert_desc_on_top, IH.
Qed.

Lemma first_order_by_desc_max (l : list A) (h : A) :
  first (order_by_desc key l) = Some h ->
  In h l /\ forall y, In y l -> key y <= key h.
Proof.
  intros Hf.
  pose proof (order_by_desc_on_top l) as Htop.
  pose proof (order_by_desc_In l) as Hin.
  destruct (order_by_desc key l) as [|h' t]; simpl in Hf; [discriminate|].
  injection Hf as ->. split.
  - apply Hin. left; reflexivity.
  - intros y Hy. apply Hin in Hy. destruct Hy as [->|Hy]; [lia|].
    simpl in Htop. rewrite Forall_forall in Htop. apply Htop, Hy.
Qed.

Lemma first_order_by_desc_None (l : list A) :
  first (order_by_desc key l) = None <-> l = [].
Proof.
  split.
  - intros Hf. destruct l as [|x l]; [reflexivity|].
    pose proof (order_by_desc_In (x :: l) x) as Hin.
    destruct (order_by_desc key (x :: l)); [|discriminate].
    exfalso. apply Hin. left; reflexivity.
  - intros ->. reflexivity.
Qed.

End QuerySetFacts.

Section UpsertFacts.

Context {A : Type} (pk : A -> nat).

Lemma upsert_In (self : A) (rows : list A) : In self (upsert pk self rows).
Proof.
  unfold upsert. destruct (existsb _ rows) eqn:E.
  - apply existsb_exists in E. destruct E as [r [Hr Hk]].
    apply in_map_iff. exists r. rewrite Hk. split; [reflexivity | exact Hr].
  - apply in_or_app. right. left. reflexivity.
Qed.

Lemma upsert_same_key (self : A) (rows : list A) (r : A) :
  In r (upsert pk self rows) -> pk r = pk self ->
  r = self \/ (In r rows /\ existsb (fun r => Nat.eqb (pk r) (pk self)) rows = false).
Proof.
  unfold upsert. destruct (existsb _ rows) eqn:E; intros Hin Hk.
  - apply in_map_iff in Hin. destruct Hin as [r0 [Hr0 _]].
    destruct (Nat.eqb (pk r0) (pk self)) eqn:E0; [left; congruence|].
    subst r0. apply Nat.eqb_neq in E0. contradiction.
  - apply in_app_or in Hin. destruct Hin as [Hin|[->|[]]].
    + right. split; [exact Hin | reflexivity].
    + left; reflexivity.
Qed.

Lemma upsert_overwrites (self : A) (rows : list A) (r : A) :
  In r (upsert pk self rows) -> pk r = pk self -> r = self.
Proof.
  intros Hin Hk. destruct (upsert_same_key self rows r Hin Hk) as [H|[Hr He]];
    [exact H|].
  exfalso. assert (existsb (fun r => Nat.eqb (pk r) (pk self)) rows = true) as Ht.
  { apply existsb_exists. exists r. split; [exact Hr | apply Nat.eqb_eq, Hk]. }
  congruence.
Qed.

Lemma upsert_again (self : A) (rows : list A) :
  upsert pk self (upsert pk self rows) = upsert pk self rows.
Proof.
  assert (existsb (fun r => Nat.eqb (pk r) (pk self)) (upsert pk self rows) = true) as E.
  { apply existsb_exists. exists self. split; [apply upsert_In | apply Nat.eqb_refl]. }
  unfold upsert at 1. rewrite E.
  rewrite <- (map_id (upsert pk self rows)) at 2.
  apply map_ext_in. intros r Hr.
  destruct (Nat.eqb (pk r) (pk self)) eqn:Ek; [|reflexivity].
  symmetry. apply (upsert_overwrites self rows r Hr). apply Nat.eqb_eq, Ek.
Qed.

End UpsertFacts.


(** ** Price resolution *)


Lemma price_list_lookup_iff (today : date) (subject : nat) (r : PriceList.t) :
  price_list_lookup today subject r = true <-> eligible today subject r.
Proof.
  unfold price_list_lookup, eligible.
  rewrite !andb_true_iff, Nat.eqb_eq, Z.leb_le. tauto.
Qed.


Lemma current_price_some (today : date) (db : DB) (subject : nat) (p : Decimal) :
  current_price today db subject = Some p ->
  exists r, In r (price_lists db) /\ eligible today subject r
            /\ PriceList.price_per_hour r = p
            /\ forall r', In r' (price_lists db) -> eligible today subject r' ->
                          PriceList.valid_from r' <= PriceList.valid_from r.
Proof.
  unfold current_price. intros H.
  destruct (first _) as [row|] eqn:Hf; [|discriminate].
  injection H as <-.
  apply first_order_by_desc_max in Hf. destruct Hf as [Hin Hmax].
  apply filter_In in Hin. destruct Hin as [Hin Hl].
  exists row. split; [exact Hin|]. split; [apply price_list_lookup_iff, Hl|].
  split; [reflexivity|].
  intros r' Hr' He. apply Hmax. apply filter_In. split; [exact Hr'|].
  apply price_list_lookup_iff, He.
Qed.

Lemma current_price_none (today : date) (db : DB) (subject : nat) :
  current_price today db subject = None <->
  forall r, In r (price_lists db) -> ~ eligible today subject r.
Proof.
  unfold current_price. split.
  - intros H r Hr He.
    destruct (first _) eqn:Hf; [discriminate|].
    apply first_order_by_desc_None in Hf.
    assert (In r (filter (price_list_lookup today subject) (price_lists db))) as Hin.
    { apply filter_In. split; [exact Hr | apply price_list_lookup_iff, He]. }
    rewrite Hf in Hin. exact Hin.
  - intros H. destruct (first _) as [row|] eqn:Hf; [|reflexivity].
    apply first_order_by_desc_max in Hf. destruct Hf as [Hin _].
    apply filter_In in Hin. destruct Hin as [Hin Hl].
    exfalso. apply (H row Hin). apply price_list_lookup_iff, Hl.
Qed.

(** C5. [current_price] is [None] exactly when the subject has no active
    price record whose [valid_from] is on or before the day asked for.
    Otherwise it is the [price_per_hour] of such a record, and no such
    record of the subject has a later [valid_from]; when one record is the
    latest, its price is the result.  With prices 20 from 2024-01-01 and 25
    from 2024-06-01 the price is 20 on 2024-03-01 and 25 on 2024-07-01. *)
Theorem current_price_latest_wins :
  forall (today : date) (db : DB) (subject : nat),
    (current_price today db subject = None <->
       forall r, In r (price_lists db) -> ~ eligible today subject r)
    /\ (forall p, current_price today db subject = Some p ->
          exists r, In r (price_lists db) /\ eligible today subject r
                    /\ PriceList.price_per_hour r = p
                    /\ forall r', In r' (price_lists db) -> eligible today subject r' ->
                                  PriceList.valid_from r' <= PriceList.valid_from r)
    /\ (forall r, In r (price_lists db) -> eligible today subject r ->
          (forall r', In r' (price_lists db) -> eligible today subject r' ->
                      r' = r \/ PriceList.valid_from r' < PriceList.valid_from r) ->
          current_price today db subject = Some (PriceList.price_per_hour r))
    /\ current_price (Date.ymd 2024 3 1) mathematik_prices 1 = Some 20%Q
    /\ current_price (Date.ymd 2024 7 1) mathematik_prices 1 = Some 25%Q.
Proof.
  intros today db subject.
  split; [apply current_price_none|].
  split; [apply current_price_some|].
  split; [|split; reflexivity].
  intros r Hr He Hlatest.
  destruct (current_price today db subject) as [p|] eqn:Hc.
  - destruct (current_price_some _ _ _ _ Hc) as [r0 [Hr0 [He0 [Hp Hmax]]]].
    specialize (Hmax r Hr He).
    destruct (Hlatest r0 Hr0 He0) as [->|Hlt]; [congruence | lia].
  - exfalso. apply (proj1 (current_price_none today db subject) Hc r Hr He).
Qed.


(** ** Discount evaluation *)

Lemma fold_left_discount_step (n : Z) (base : Decimal) (l : list Discount.t) (acc : Decimal) :
  (fold_left (discount_step n base) l acc
   == acc + Qsum (map (discount_amount_of base) (filter (admitted n) l)))%Q.
Proof.
  revert acc. induction l as [|d l IH]; intros acc; simpl.
  - ring.
  - rewrite IH. unfold discount_step, admitted.
    destruct (bound_and Z.ltb n (Discount.min_subjects d)); simpl; [reflexivity|].
    destruct (bound_and Z.gtb n (Discount.max_subjects d)); simpl; [reflexivity|].
    ring.
Qed.

Lemma Qsum_map_filter_perm {A : Type} (f : A -> Decimal) (p : A -> bool) (l l' : list A) :
  Permutation l l' ->
  (Qsum (map f (filter p l)) == Qsum (map f (filter p l')))%Q.
Proof.
  induction 1 as [|x l l' _ IH|x y l|l l' l'' _ IH1 _ IH2]; simpl.
  - reflexivity.
  - destruct (p x); simpl; rewrite IH; reflexivity.
  - destruct (p x), (p y); simpl; ring.
  - rewrite IH1. exact IH2.
Qed.

Lemma filter_twice {A : Type} (p q : A -> bool) (l : list A) :
  filter p (filter q l) = filter (fun x => q x && p x) l.
Proof.
  induction l as [|x l IH]; simpl; [reflexivity|].
  destruct (q x); simpl; [destruct (p x)|]; rewrite IH; reflexivity.
Qed.

Lemma admitted_bounds (n : Z) (d : Discount.t) :
  admitted n d
  = match Discount.min_subjects d with
    | None => true
    | Some m => (m =? 0) || (m <=? n)
    end
    && match Discount.max_subjects d with
       | None => true
       | Some m => (m =? 0) || (n <=? m)
       end.
Proof.
  unfold admitted, bound_and, int_truthy.
  f_equal.
  - destruct (Discount.min_subjects d) as [m|]; [|reflexivity].
    rewrite negb_andb, negb_involutive, Z.ltb_antisym, negb_involutive. reflexivity.
  - destruct (Discount.max_subjects d) as [m|]; [|reflexivity].
    rewrite negb_andb, negb_involutive, Z.gtb_ltb, Z.ltb_antisym, negb_involutive.
    reflexivity.
Qed.

Lemma applied_split (today : date) (n : Z) (d : Discount.t) :
  applied today n d = discount_lookup today d && admitted n d.
Proof.
  rewrite admitted_bounds. unfold applied, discount_lookup.
  rewrite !andb_assoc. repeat f_equal.
  destruct (Discount.valid_to d) as [t|]; [apply Z.geb_leb | reflexivity].
Qed.

Lemma calculate_discounts_total (today : date) (db : DB) (self : ContractItem.t) :
  (calculate_discounts today db self == discount_total (applied today) db self)%Q.
Proof.
  unfold calculate_discounts, discount_total.
  rewrite fold_left_discount_step, Qplus_0_l.
  rewrite (Qsum_map_filter_perm _ _ _ _ (order_by_desc_perm Discount.valid_from _)).
  rewrite filter_twice.
  rewrite (filter_ext _ _ (applied_split today _)).
  reflexivity.
Qed.

(** The result does not depend on the order of the rows of the table. *)
Lemma calculate_discounts_perm (today : date) (db : DB) (l : list Discount.t)
    (self : ContractItem.t) :
  Permutation (discounts db) l ->
  (calculate_discounts today (set_discounts l db) self
   == calculate_discounts today db self)%Q.
Proof.
  intros Hp. rewrite !calculate_discounts_total. unfold discount_total. simpl.
  unfold active_items. simpl.
  apply Qsum_map_filter_perm, Permutation_sym, Hp.
Qed.

(** C3, as stated, fails: with one active item in the contract and a 10%
    rule whose [max_subjects] is 0, the method returns 2 on a base price of
    20, while the rules whose set bounds admit the count sum to 0. *)
Lemma calculate_discounts_zero_max_applies :
  let self := item 1 20 in
  let db := catalog [rule 1 percentage 10 None (Some 0)] [self] in
  (calculate_discounts 5%Z db self == 2)%Q
  /\ (discount_total (stated_applicable 5%Z) db self == 0)%Q
  /\ ~ (calculate_discounts 5%Z db self
        == discount_total (stated_applicable 5%Z) db self)%Q.
Proof.
  cbv zeta. split; [reflexivity|]. split; [reflexivity|].
  intro H. vm_compute in H. discriminate H.
Qed.

(** C3, amended.  [calculate_discounts] returns the sum, not clamped, over
    every rule of the table that is active, has [valid_from <= today], has
    [valid_to] null or [>= today], and whose [min_subjects] and
    [max_subjects], when set and not 0, admit the number of active items of
    the contract, of [base_price * value / 100] for a percentage rule and
    of [value] for an absolute one. *)
Theorem calculate_discounts_stacks :
  forall (today : date) (db : DB) (self : ContractItem.t),
    (calculate_discounts today db self
     == Qsum (map (fun d => if DiscountType.is_percentage (Discount.discount_type d)
                            then ContractItem.base_price self * Discount.value d / 100
                            else Discount.value d)
                  (filter (applied today (count (active_items db (ContractItem.contract self))))
                          (discounts db))))%Q.
Proof.
  intros today db self. apply calculate_discounts_total.
Qed.


(** *** Bounds of 0 *)

Lemma insert_desc_map {A : Type} (key : A -> Z) (f : A -> A) (x : A) (l : list A) :
  (forall a, key (f a) = key a) ->
  insert_desc key (f x) (map f l) = map f (insert_desc key x l).
Proof.
  intros Hk. induction l as [|y t IH]; simpl; [reflexivity|].
  rewrite !Hk. destruct (key y <=? key x); simpl; [reflexivity|].
  rewrite IH. reflexivity.
Qed.

Lemma order_by_desc_map {A : Type} (key : A -> Z) (f : A -> A) (l : list A) :
  (forall a, key (f a) = key a) ->
  order_by_desc key (map f l) = map f (order_by_desc key l).
Proof.
  intros Hk. induction l as [|x l IH]; [reflexivity|].
  change (insert_desc key (f x) (order_by_desc key (map f l))
          = map f (insert_desc key x (order_by_desc key l))).
  rewrite IH. apply insert_desc_map, Hk.
Qed.

Lemma filter_map_same {A : Type} (p : A -> bool) (f : A -> A) (l : list A) :
  (forall a, p (f a) = p a) ->
  filter p (map f l) = map f (filter p l).
Proof.
  intros Hp. induction l as [|x l IH]; simpl; [reflexivity|].
  rewrite Hp. destruct (p x); simpl; rewrite IH; reflexivity.
Qed.

Lemma bound_and_unset_zero (cmp : Z -> Z -> bool) (n : Z) (bound : option Z) :
  bound_and cmp n (unset_zero bound) = bound_and cmp n bound.
Proof.
  destruct bound as [[|m|m]|]; reflexivity.
Qed.

Lemma discount_step_unset_zero (n : Z) (base total : Decimal) (d : Discount.t) :
  discount_step n base total (unset_zero_bounds d) = discount_step n base total d.
Proof.
  unfold discount_step. simpl. rewrite !bound_and_unset_zero. reflexivity.
Qed.

Lemma fold_left_discount_step_unset_zero (n : Z) (base : Decimal)
    (l : list Discount.t) (acc : Decimal) :
  fold_left (discount_step n base) (map unset_zero_bounds l) acc
  = fold_left (discount_step n base) l acc.
Proof.
  revert acc. induction l as [|d l IH]; intros acc; simpl; [reflexivity|].
  rewrite discount_step_unset_zero. apply IH.
Qed.

Lemma applied_unset_zero (today : date) (n : Z) (d : Discount.t) :
  applied today n d = stated_applicable today n (unset_zero_bounds d).
Proof.
  unfold applied, stated_applicable. simpl.
  destruct (Discount.min_subjects d) as [[|m|m]|];
    destruct (Discount.max_subjects d) as [[|k|k]|]; reflexivity.
Qed.

(** C10.  A bound of 0 in [min_subjects] or [max_subjects] counts as no
    bound: putting null for every bound of 0 in the discount table leaves
    the result of [calculate_discounts] as it is, for every item; each turn
    of the loop treats a rule and the rule with its bounds of 0 removed
    alike; and a rule whose [max_subjects] is 0 and whose [min_subjects]
    admits the count adds its amount whatever the count of active items.
    The result of [calculate_discounts] is the sum of the amounts of the
    rules that are active, in their validity window, and whose bounds admit
    the count once every bound of 0 is taken as not set; and putting into
    the table a rule in force with [max_subjects] 0, whose [min_subjects]
    admits the count, raises the result by the amount of that rule,
    whatever the number of active items. *)
Theorem zero_bound_is_unset :
  forall (today : date) (db : DB) (self : ContractItem.t),
    calculate_discounts today (set_discounts (map unset_zero_bounds (discounts db)) db) self
    = calculate_discounts today db self
    /\ (forall (n : Z) (base total : Decimal) (d : Discount.t),
          discount_step n base total (unset_zero_bounds d) = discount_step n base total d)
    /\ (forall (n : Z) (base total : Decimal) (d : Discount.t),
          Discount.max_subjects d = Some 0 ->
          match Discount.min_subjects d with
          | None => True
          | Some m => m <= n
          end ->
          discount_step n base total d = (total + discount_amount_of base d)%Q)
    /\ (calculate_discounts today db self
        == Qsum (map (discount_amount_of (ContractItem.base_price self))
                     (filter (fun d =>
                                stated_applicable
                                  today
                                  (count (active_items db (ContractItem.contract self)))
                                  (unset_zero_bounds d))
                             (discounts db))))%Q
    /\ (forall d : Discount.t,
          Discount.is_active d = true ->
          Discount.valid_from d <= today ->
          match Discount.valid_to d with
          | None => True
          | Some t => today <= t
          end ->
          match Discount.min_subjects d with
          | None => True
          | Some m => m <= count (active_items db (ContractItem.contract self))
          end ->
          Discount.max_subjects d = Some 0 ->
          (calculate_discounts today (set_discounts (d :: discounts db) db) self
           == calculate_discounts today db self
              + (if DiscountType.is_percentage (Discount.discount_type d)
                 then ContractItem.base_price self * Discount.value d / 100
                 else Discount.value d))%Q).
Proof.
  intros today db self. split; [|split; [|split; [|split]]].
  - unfold calculate_discounts, active_items. simpl.
    rewrite filter_map_same by reflexivity.
    rewrite order_by_desc_map by reflexivity.
    apply fold_left_discount_step_unset_zero.
  - apply discount_step_unset_zero.
  - intros n base total d Hmax Hmin. unfold discount_step. rewrite Hmax. simpl.
    destruct (Discount.min_subjects d) as [m|]; [|reflexivity].
    unfold bound_and. simpl.
    replace (n <? m) with false by (symmetry; apply Z.ltb_ge; exact Hmin).
    rewrite andb_false_r. reflexivity.
  - rewrite calculate_discounts_total. unfold discount_total.
    rewrite (filter_ext _ _ (applied_unset_zero today _)). reflexivity.
  - intros d Ha Hfrom Hto Hmin Hmax.
    rewrite !calculate_discounts_total. unfold discount_total.
    cbn [discounts set_discounts]. unfold active_items at 1.
    cbn [contract_items set_discounts].
    fold (active_items db (ContractItem.contract self)).
    cbn [filter].
    assert (applied today (count (active_items db (ContractItem.contract self))) d = true)
      as ->.
    { unfold applied. rewrite Ha, Hmax.
      replace (Discount.valid_from d <=? today) with true
        by (symmetry; apply Z.leb_le; exact Hfrom).
      destruct (Discount.valid_to d) as [t|];
        destruct (Discount.min_subjects d) as [m|]; simpl;
        rewrite ?Z.geb_leb;
        repeat match goal with
               | H : ?a <= ?b |- context [?a <=? ?b] =>
                   replace (a <=? b) with true by (symmetry; apply Z.leb_le; exact H)
               end;
        rewrite ?orb_true_r; reflexivity. }
    cbn [map]. unfold Qsum. cbn [fold_right]. unfold discount_amount_of at 1.
    apply Qplus_comm.
Qed.


(** ** The final price *)

Lemma py_max_lower (a : Decimal) : (0 <= py_max a 0)%Q.
Proof.
  unfold py_max. destruct (Qlt_bool a 0) eqn:E.
  - apply Qle_refl.
  - destruct (Qlt_le_dec a 0) as [Hlt|Hle]; [|exact Hle].
    apply Qlt_bool_iff in Hlt. congruence.
Qed.

Lemma py_max_upper (a b : Decimal) : (a <= b)%Q -> (0 <= b)%Q -> (py_max a 0 <= b)%Q.
Proof.
  intros Ha Hb. unfold py_max. destruct (Qlt_bool a 0); assumption.
Qed.

Lemma discount_amount_of_nonneg (base : Decimal) (d : Discount.t) :
  (0 <= base)%Q -> (0 <= Discount.value d)%Q -> (0 <= discount_amount_of base d)%Q.
Proof.
  intros Hb Hv. unfold discount_amount_of.
  destruct (DiscountType.is_percentage (Discount.discount_type d)); [|exact Hv].
  unfold Qdiv. apply Qmult_le_0_compat; [apply Qmult_le_0_compat; assumption|].
  discriminate.
Qed.

Lemma applied_is_active (today : date) (n : Z) (d : Discount.t) :
  applied today n d = true -> Discount.is_active d = true.
Proof.
  unfold applied. rewrite !andb_true_iff. tauto.
Qed.

Lemma calculate_discounts_nonneg (today : date) (db : DB) (self : ContractItem.t) :
  (forall d, In d (discounts db) -> Discount.is_active d = true ->
             (0 <= Discount.value d)%Q) ->
  (0 <= ContractItem.base_price self)%Q ->
  (0 <= calculate_discounts today db self)%Q.
Proof.
  intros Hv Hb. rewrite calculate_discounts_total. unfold discount_total.
  apply Qsum_nonneg. apply Forall_forall. intros x Hx.
  apply in_map_iff in Hx. destruct Hx as [d [<- Hd]].
  apply filter_In in Hd. destruct Hd as [Hd Ha].
  apply discount_amount_of_nonneg; [exact Hb|].
  apply Hv; [exact Hd | exact (applied_is_active _ _ _ Ha)].
Qed.

(** C2, as stated, fails twice.  An item with base price -5 and an empty
    discount table (so no active rule has a negative value) gets final
    price 0, which is above its base price.  And for an item with base
    price 10.01 under a rule of 15 percent the call assigns 8.5085, the
    value of [max(base_price - discounts, 0)], while the row that is
    written holds 8.51. *)
Lemma update_final_price_as_stated_fails :
  (let self := item 1 (-5) in
   let db := catalog [] [self] in
   (forall d, In d (discounts db) -> Discount.is_active d = true ->
              (0 <= Discount.value d)%Q)
   /\ (ContractItem.final_price (fst (update_final_price 5%Z self db)) == 0)%Q
   /\ ~ (ContractItem.final_price (fst (update_final_price 5%Z self db))
         <= ContractItem.base_price (fst (update_final_price 5%Z self db)))%Q)
  /\ (let self := item 1 (1001 # 100) in
      let db := catalog [rule 1 percentage 15 None None] [self] in
      exists self' db',
        update_final_price_written 5%Z self db = Stored (self', db')
        /\ (ContractItem.final_price self'
            == Qmax (ContractItem.base_price self - calculate_discounts 5%Z db self) 0)%Q
        /\ (ContractItem.final_price self' == 85085 # 10000)%Q
        /\ contract_items db'
           = [ContractItem.mk 1 1 1 1 (1001 # 100) (851 # 100) true]
        /\ forall r, In r (contract_items db') ->
                     ~ (ContractItem.final_price r
                        == Qmax (ContractItem.base_price self
                                 - calculate_discounts 5%Z db self) 0)%Q).
Proof.
  split.
  - cbv zeta. split; [intros d []|]. split; [reflexivity|].
    intro H. vm_compute in H. apply H. reflexivity.
  - cbv zeta. eexists. eexists. split; [reflexivity|].
    split; [rewrite <- py_max_spec; reflexivity|].
    split; [reflexivity|]. split; [reflexivity|].
    intros r [<-|[]] H. rewrite <- py_max_spec in H. vm_compute in H. discriminate H.
Qed.

(** ** Recalculation *)

Lemma calculate_discounts_reads (today : date) (db db' : DB) (self self' : ContractItem.t) :
  discounts db' = discounts db ->
  count (active_items db' (ContractItem.contract self'))
  = count (active_items db (ContractItem.contract self)) ->
  ContractItem.base_price self' = ContractItem.base_price self ->
  calculate_discounts today db' self' = calculate_discounts today db self.
Proof.
  intros Hd Hc Hb. unfold calculate_discounts. rewrite Hd, Hc, Hb. reflexivity.
Qed.

Lemma length_filter_map_same {A : Type} (p : A -> bool) (f : A -> A) (l : list A) :
  (forall a, In a l -> p (f a) = p a) ->
  List.length (filter p (map f l)) = List.length (filter p l).
Proof.
  induction l as [|x l IH]; intros Hp; simpl; [reflexivity|].
  rewrite (Hp x (or_introl eq_refl)).
  assert (forall a, In a l -> p (f a) = p a) as Hp' by (intros a Ha; apply Hp; right; exact Ha).
  destruct (p x); simpl; rewrite (IH Hp'); reflexivity.
Qed.

Lemma in_step_row_exists (db : DB) (self : ContractItem.t) :
  in_step db self ->
  existsb (fun r => Nat.eqb (ContractItem.pk r) (ContractItem.pk self)) (contract_items db)
  = true.
Proof.
  intros [[r [Hr Hk]] _]. apply existsb_exists. exists r.
  split; [exact Hr | apply Nat.eqb_eq, Hk].
Qed.

(** Saving an instance that is in step, with another final price, leaves
    the number of active items of every contract as it was. *)
Lemma save_keeps_active_count (db : DB) (self : ContractItem.t) (v : Decimal) (c : nat) :
  in_step db self ->
  count (active_items (ContractItem_save (ContractItem.set_final_price v self) db) c)
  = count (active_items db c).
Proof.
  intros Hs. unfold count, active_items, ContractItem_save, upsert. simpl.
  rewrite (in_step_row_exists db self Hs). f_equal.
  apply length_filter_map_same. intros r Hr.
  destruct (Nat.eqb (ContractItem.pk r) (ContractItem.pk self)) eqn:Ek; [|reflexivity].
  apply Nat.eqb_eq in Ek. destruct Hs as [_ Hs].
  destruct (Hs r Hr Ek) as [Hc Ha]. simpl. rewrite Hc, Ha. reflexivity.
Qed.

Lemma set_final_price_twice (v : Decimal) (self : ContractItem.t) :
  ContractItem.set_final_price v (ContractItem.set_final_price v self)
  = ContractItem.set_final_price v self.
Proof. reflexivity. Qed.

Lemma ContractItem_save_again (self : ContractItem.t) (db : DB) :
  ContractItem_save self (ContractItem_save self db) = ContractItem_save self db.
Proof.
  unfold ContractItem_save, set_contract_items. simpl.
  rewrite upsert_again. reflexivity.
Qed.

(** C4, as stated, fails for an instance that is not yet a row of the
    table.  Contract 1 holds two active items and the catalog a rule of 15
    percent for three subjects or more; a new active item of the contract
    with base price 40 gets 40 from the first call, which reads two active
    items and then inserts the item, and 34 from the second call, which
    reads three.  Between the calls the catalog, the table and the base
    price are as the first call left them. *)
Lemma update_final_price_twice_new_item :
  let self := ContractItem.mk 3 1 1 3 40 40 true in
  let db := catalog [rule 1 percentage 15 (Some 3) None] [item 1 20; item 2 30] in
  let first_call := update_final_price 5 self db in
  let second_call := update_final_price 5 (fst first_call) (snd first_call) in
  discounts (snd first_call) = discounts db
  /\ ContractItem.base_price (fst first_call) = ContractItem.base_price self
  /\ (ContractItem.final_price (fst first_call) == 40)%Q
  /\ (ContractItem.final_price (fst second_call) == 34)%Q
  /\ ~ (ContractItem.final_price (fst second_call)
        == ContractItem.final_price (fst first_call))%Q.
Proof.
  cbv zeta. split; [reflexivity|]. split; [reflexivity|].
  split; [reflexivity|]. split; [reflexivity|].
  intro H. vm_compute in H. discriminate H.
Qed.

(** C6, as stated, fails: recalculating the item of 20 under the 10 percent
    rule applies the rule (the final price becomes 18) and leaves the table
    of applied discounts empty, with no row for the item and the rule. *)
Lemma update_final_price_records_nothing :
  let self := item 1 20 in
  let d := rule 1 percentage 10 None None in
  let db := catalog [d] [self] in
  (calculate_discounts 5%Z db self == 2)%Q
  /\ (ContractItem.final_price (fst (update_final_price 5%Z self db)) == 18)%Q
  /\ ~ exists row,
         In row (contract_item_discounts (snd (update_final_price 5%Z self db)))
         /\ ContractItemDiscount.contract_item row = ContractItem.pk self
         /\ ContractItemDiscount.discount row = Discount.pk d.
Proof.
  cbv zeta. split; [reflexivity|]. split; [reflexivity|].
  intros [row [[] _]].
Qed.

(** C6, amended.  [update_final_price] creates no applied-discount row:
    the [ContractItemDiscount] table after the call is the table before it,
    whatever rules the recalculation applies; nor does the call touch the
    discount table. *)
Theorem update_final_price_keeps_applied_discounts :
  forall (today : date) (self : ContractItem.t) (db : DB),
    contract_item_discounts (snd (update_final_price today self db))
    = contract_item_discounts db
    /\ discounts (snd (update_final_price today self db)) = discounts db.
Proof.
  intros today self db. split; reflexivity.
Qed.


(** ** Invoices *)

(** C8.  [is_overdue] holds exactly when the status is not ['paid'] and the
    due date is before today.  It is a function of the instance and the day
    alone: it takes no database and returns none. *)
Theorem is_overdue_iff :
  forall (today : date) (self : Invoice.t),
    is_overdue today self = true
    <-> Invoice.status self <> "paid"%string /\ Invoice.due_date self < today.
Proof.
  intros today self. unfold is_overdue.
  rewrite andb_true_iff, negb_true_iff, String.eqb_neq, Z.ltb_lt. tauto.
Qed.

Lemma calculate_totals_stored (self : Invoice.t) (db : DB) :
  In self (invoices db) ->
  exists db',
    calculate_totals self db
    = Ok (Invoice.set_totals
            (py_sum (map InvoiceItem.total_amount (items_all db self)))
            (py_sum (map InvoiceItem.discount_amount (items_all db self)))
            (py_sum (map InvoiceItem.total_amount (items_all db self))
             - py_sum (map InvoiceItem.discount_amount (items_all db self)))%Q
            self,
          db').
Proof.
  intros Hin. unfold calculate_totals.
  assert (existsb (fun r => Nat.eqb (Invoice.pk r) (Invoice.pk self)) (invoices db) = true)
    as ->.
  { apply existsb_exists. exists self. split; [exact Hin | apply Nat.eqb_refl]. }
  eexists. reflexivity.
Qed.

(** What [calculate_totals] sums: the stored totals of the lines, which
    [InvoiceItem.save] has already reduced by the discounts. *)
Lemma calculate_totals_sums (self self' : Invoice.t) (db db' : DB) :
  calculate_totals self db = Ok (self', db') ->
  (Invoice.total_amount self' == Invoice.subtotal self' - Invoice.total_discount self')%Q
  /\ (Invoice.total_discount self'
      == Qsum (map InvoiceItem.discount_amount (items_all db self)))%Q
  /\ (Invoice.subtotal self' == Qsum (map InvoiceItem.total_amount (items_all db self)))%Q.
Proof.
  unfold calculate_totals. destruct (existsb _ (invoices db)); [|discriminate].
  intros H. injection H as <- _. simpl.
  split; [reflexivity|]. split; apply py_sum_Qsum.
Qed.

(** C1.  On an invoice with one saved line of one unit at 10 with a
    discount of 2, [calculate_totals] sets [subtotal] to 8, the line's
    total after discount, where the amount before discount is 10; the
    discount is taken off a second time and [total_amount] is 6. *)
Theorem calculate_totals_subtracts_discount_twice :
  exists (self' : Invoice.t) (db' : DB),
    calculate_totals draft_invoice (snd (InvoiceItem_save discounted_line (billing [])))
    = Ok (self', db')
    /\ (Qsum (map amount_before_discount
                  (items_all (snd (InvoiceItem_save discounted_line (billing [])))
                             draft_invoice)) == 10)%Q
    /\ (Invoice.subtotal self' == 8)%Q
    /\ (Invoice.total_discount self' == 2)%Q
    /\ (Invoice.total_amount self' == 6)%Q
    /\ In self' (invoices db').
Proof.
  eexists. eexists. split; [reflexivity|]. simpl.
  split; [reflexivity|]. split; [reflexivity|]. split; [reflexivity|].
  split; [reflexivity|]. left. reflexivity.
Qed.


(** ** Change requests *)

Lemma remove_lookup_iff (contract child subject : nat) (i : ContractItem.t) :
  remove_lookup contract child subject i = true
  <-> ContractItem.contract i = contract /\ ContractItem.child i = child
      /\ ContractItem.subject i = subject /\ ContractItem.is_active i = true.
Proof.
  unfold remove_lookup. rewrite !andb_true_iff, !Nat.eqb_eq. tauto.
Qed.

(** Under a uniqueness constraint on a key, a lookup that fixes the key
    finds the one row that passes it. *)
Lemma filter_unique {A K : Type} (key : A -> K) (p : A -> bool) (l : list A) (x : A) :
  NoDup (map key l) ->
  (forall y, p y = true -> key y = key x) ->
  In x l -> p x = true ->
  filter p l = [x].
Proof.
  intros Hnd Hkey. induction l as [|a t IH]; intros Hin Hp; [destruct Hin|].
  simpl in Hnd. inversion Hnd as [|k ks Hnotin Hnd' Heq]; subst.
  simpl. destruct Hin as [->|Hin].
  - rewrite Hp. f_equal.
    destruct (filter p t) as [|y ys] eqn:Hf; [reflexivity|].
    exfalso. apply Hnotin.
    assert (In y (filter p t)) as Hy by (rewrite Hf; left; reflexivity).
    apply filter_In in Hy. destruct Hy as [Hy Hpy].
    rewrite <- (Hkey y Hpy). apply in_map, Hy.
  - destruct (p a) eqn:Hpa.
    + exfalso. apply Hnotin. rewrite (Hkey a Hpa). apply in_map, Hin.
    + apply IH; assumption.
Qed.

Lemma filter_none {A : Type} (p : A -> bool) (l : list A) :
  (forall y, In y l -> p y = false) -> filter p l = [].
Proof.
  induction l as [|a t IH]; intros H; simpl; [reflexivity|].
  rewrite (H a (or_introl eq_refl)). apply IH. intros y Hy. apply H. right. exact Hy.
Qed.

(** C9.  For a request of type [remove_subject] with contract, child and
    subject set, on a table that satisfies the uniqueness constraint of
    contract items: when the contract has an active item of that child and
    subject, [calculate_estimated_change] returns the request with
    [estimated_monthly_change] equal to minus the item's [final_price];
    when it has none, with [estimated_monthly_change] equal to 0.  In both
    cases type, contract, child and subject of the request are as before. *)
Theorem remove_subject_estimate :
  forall (today : date) (self : ContractChangeRequest.t) (db : DB)
         (contract child subject : nat),
    ContractChangeRequest.request_type self = "remove_subject"%string ->
    ContractChangeRequest.contract self = Some contract ->
    ContractChangeRequest.child self = Some child ->
    ContractChangeRequest.subject self = Some subject ->
    unique_together db ->
    (forall i, In i (contract_items db) ->
               ContractItem.contract i = contract -> ContractItem.child i = child ->
               ContractItem.subject i = subject -> ContractItem.is_active i = true ->
               calculate_estimated_change today self db
               = Ok (ContractChangeRequest.mk
                       (ContractChangeRequest.contract self)
                       (ContractChangeRequest.child self)
                       (ContractChangeRequest.request_type self)
                       (ContractChangeRequest.subject self)
                       (Some (- ContractItem.final_price i)%Q)))
    /\ ((forall i, In i (contract_items db) ->
                   ~ (ContractItem.contract i = contract /\ ContractItem.child i = child
                      /\ ContractItem.subject i = subject
                      /\ ContractItem.is_active i = true)) ->
        calculate_estimated_change today self db
        = Ok (ContractChangeRequest.mk
                (ContractChangeRequest.contract self)
                (ContractChangeRequest.child self)
                (ContractChangeRequest.request_type self)
                (ContractChangeRequest.subject self)
                (Some 0%Q))).
Proof.
  intros today self db contract child subject Hty Hc Hch Hs Hu.
  split.
  - intros i Hi Hic Hich His Hia.
    change (calculate_estimated_change today self db
            = Ok (ContractChangeRequest.set_estimated_monthly_change
                    (Some (- ContractItem.final_price i)%Q) self)).
    unfold calculate_estimated_change. rewrite Hty, Hc, Hch, Hs. simpl.
    rewrite (filter_unique
               (fun i => (ContractItem.contract i, ContractItem.child i,
                          ContractItem.subject i))
               (remove_lookup contract child subject) (contract_items db) i Hu).
    + reflexivity.
    + intros y Hy. apply remove_lookup_iff in Hy. destruct Hy as [-> [-> [-> _]]].
      rewrite Hic, Hich, His. reflexivity.
    + exact Hi.
    + apply remove_lookup_iff. tauto.
  - intros Hnone.
    change (calculate_estimated_change today self db
            = Ok (ContractChangeRequest.set_estimated_monthly_change (Some 0%Q) self)).
    unfold calculate_estimated_change. rewrite Hty, Hc, Hch, Hs. simpl.
    rewrite filter_none; [reflexivity|].
    intros y Hy. destruct (remove_lookup contract child subject y) eqn:E; [|reflexivity].
    exfalso. apply (Hnone y Hy). apply remove_lookup_iff, E.
Qed.

(** Scenario D: contract 1 holds an active item of child 1 and subject 1
    with final price 30.  Removing that subject is estimated at -30, and
    removing subject 1 of child 2, who has no such item, at 0. *)
Lemma remove_subject_estimate_witness :
  let stored := ContractItem.mk 1 1 1 1 40 30 true in
  let db := catalog [] [stored] in
  unique_together db
  /\ calculate_estimated_change 5 (remove_request 1 1 1) db
     = Ok (ContractChangeRequest.mk (Some 1%nat) (Some 1%nat) "remove_subject"
                                    (Some 1%nat) (Some (-30)%Q))
  /\ calculate_estimated_change 5 (remove_request 1 2 1) db
     = Ok (ContractChangeRequest.mk (Some 1%nat) (Some 2%nat) "remove_subject"
                                    (Some 1%nat) (Some 0%Q)).
Proof.
  cbv zeta.
  assert (unique_together (catalog [] [ContractItem.mk 1 1 1 1 40 30 true])) as Hu.
  { unfold unique_together. simpl. constructor; [intros [] | constructor]. }
  split; [exact Hu|]. split.
  - apply (proj1 (remove_subject_estimate 5 (remove_request 1 1 1) _ 1%nat 1%nat 1%nat
                    eq_refl eq_refl eq_refl eq_refl Hu)
                 (ContractItem.mk 1 1 1 1 40 30 true));
      [left; reflexivity | reflexivity | reflexivity | reflexivity | reflexivity].
  - apply (proj2 (remove_subject_estimate 5 (remove_request 1 2 1) _ 1%nat 2%nat 1%nat
                    eq_refl eq_refl eq_refl eq_refl Hu)).
    intros i [<-|[]] [_ [Hch _]]. discriminate Hch.
Defined.


(** ** Further properties of invoices *)

(** X1.  [Invoice.days_overdue] is never negative, and it is positive
    exactly when the invoice is overdue, in which case it is the number of
    days from the due date to today; a paid invoice has 0 days overdue. *)
Theorem days_overdue_sign :
  forall (today : date) (self : Invoice.t),
    0 <= days_overdue today self
    /\ (0 < days_overdue today self <-> is_overdue today self = true)
    /\ (is_overdue today self = true ->
        days_overdue today self = today - Invoice.due_date self)
    /\ (Invoice.status self = "paid"%string -> days_overdue today self = 0).
Proof.
  intros today self. unfold days_overdue.
  destruct (is_overdue today self) eqn:E.
  - apply is_overdue_iff in E. destruct E as [Hs Hd].
    repeat split; try lia; try reflexivity.
    intros Hp. contradiction.
  - repeat split; try lia; try discriminate; reflexivity.
Qed.

(** ** Recalculation in bulk *)

Lemma primary_key_inj {A : Type} (pk : A -> nat) (rows : list A) (x y : A) :
  primary_key pk rows -> In x rows -> In y rows -> pk x = pk y -> x = y.
Proof.
  unfold primary_key. induction rows as [|a t IH]; intros Hnd Hx Hy Hk; [destruct Hx|].
  simpl in Hnd. inversion Hnd as [|k ks Hnotin Hnd' Heq]; subst.
  destruct Hx as [->|Hx], Hy as [->|Hy].
  - reflexivity.
  - exfalso. apply Hnotin. rewrite Hk. apply in_map, Hy.
  - exfalso. apply Hnotin. rewrite <- Hk. apply in_map, Hx.
  - apply IH; assumption.
Qed.


Lemma upsert_map_present {A : Type} (pk : A -> nat) (self : A) (rows : list A) :
  existsb (fun r => Nat.eqb (pk r) (pk self)) rows = true ->
  upsert pk self rows = map (fun r => if Nat.eqb (pk r) (pk self) then self else r) rows.
Proof.
  intros H. unfold upsert. rewrite H. reflexivity.
Qed.

Section Recalculate.

Variable today : date.
Variable db : DB.
Hypothesis Hpk : primary_key ContractItem.pk (contract_items db).

(** The row [update_final_price] alone would store for [r]. *)
Let recalc (r : ContractItem.t) : ContractItem.t := fst (update_final_price today r db).

Lemma recalc_keeps (r : ContractItem.t) :
  ContractItem.pk (recalc r) = ContractItem.pk r
  /\ ContractItem.contract (recalc r) = ContractItem.contract r
  /\ ContractItem.is_active (recalc r) = ContractItem.is_active r
  /\ ContractItem.base_price (recalc r) = ContractItem.base_price r.
Proof. repeat split; reflexivity. Qed.







End Recalculate.











(** ** The monthly amount of a contract *)


Lemma active_items_In (db : DB) (contract : nat) (r : ContractItem.t) :
  In r (active_items db contract)
  <-> In r (contract_items db) /\ ContractItem.contract r = contract
      /\ ContractItem.is_active r = true.
Proof.
  unfold active_items. rewrite filter_In, andb_true_iff, Nat.eqb_eq. tauto.
Qed.





(** ** Deactivation and the estimate of a removal *)

Lemma remove_estimate_found (today : date) (self : ContractChangeRequest.t) (db : DB)
    (contract child subject : nat) (i : ContractItem.t) :
  ContractChangeRequest.request_type self = "remove_subject"%string ->
  ContractChangeRequest.contract self = Some contract ->
  ContractChangeRequest.child self = Some child ->
  ContractChangeRequest.subject self = Some subject ->
  filter (remove_lookup contract child subject) (contract_items db) = [i] ->
  calculate_estimated_change today self db
  = Ok (ContractChangeRequest.set_estimated_monthly_change
          (Some (- ContractItem.final_price i)%Q) self).
Proof.
  intros Hty Hc Hch Hs Hf.
  unfold calculate_estimated_change. rewrite Hty, Hc, Hch, Hs. simpl.
  rewrite Hf. reflexivity.
Qed.

Lemma Qsum_cons (x : Decimal) (l : list Decimal) : Qsum (x :: l) = (x + Qsum l)%Q.
Proof. reflexivity. Qed.

Lemma by_keys_one (k : nat) (r : ContractItem.t) :
  by_keys [k] r = Nat.eqb (ContractItem.pk r) k.
Proof. unfold by_keys. simpl. apply orb_false_r. Qed.

Lemma deactivate_absent (rows : list ContractItem.t) (k : nat) :
  ~ In k (map ContractItem.pk rows) ->
  map (fun r => if by_keys [k] r then ContractItem_set_is_active false r else r) rows
  = rows.
Proof.
  intros Hk. rewrite <- (map_id rows) at 2. apply map_ext_in. intros r Hr.
  rewrite by_keys_one. destruct (Nat.eqb (ContractItem.pk r) k) eqn:E; [|reflexivity].
  apply Nat.eqb_eq in E. exfalso. apply Hk. rewrite <- E. apply in_map, Hr.
Qed.

Lemma deactivate_one_sum (rows : list ContractItem.t) (contract : nat) (i : ContractItem.t) :
  primary_key ContractItem.pk rows ->
  In i rows ->
  ContractItem.contract i = contract ->
  ContractItem.is_active i = true ->
  (Qsum (map ContractItem.final_price
           (filter (fun r => Nat.eqb (ContractItem.contract r) contract
                             && ContractItem.is_active r)
                   (map (fun r => if by_keys [ContractItem.pk i] r
                                  then ContractItem_set_is_active false r else r)
                        rows)))
   + ContractItem.final_price i
   == Qsum (map ContractItem.final_price
              (filter (fun r => Nat.eqb (ContractItem.contract r) contract
                                && ContractItem.is_active r)
                      rows)))%Q.
Proof.
  unfold primary_key. induction rows as [|a t IH]; intros Hnd Hin Hc Ha; [destruct Hin|].
  simpl in Hnd. inversion Hnd as [|k ks Hnotin Hnd' Heq]; subst ks k.
  cbn [map]. rewrite by_keys_one.
  destruct Hin as [Hai|Hin].
  - subst a. rewrite Nat.eqb_refl. rewrite (deactivate_absent t _ Hnotin).
    cbn [filter]. cbn [ContractItem_set_is_active ContractItem.is_active
                       ContractItem.contract].
    rewrite andb_false_r. rewrite Hc, Ha, Nat.eqb_refl. cbn [andb map].
    rewrite Qsum_cons. ring.
  - destruct (Nat.eqb (ContractItem.pk a) (ContractItem.pk i)) eqn:E.
    + apply Nat.eqb_eq in E. exfalso. apply Hnotin. rewrite E. apply in_map, Hin.
    + cbn [filter].
      destruct (Nat.eqb (ContractItem.contract a) contract && ContractItem.is_active a).
      * cbn [map]. rewrite !Qsum_cons. rewrite <- (IH Hnd' Hin Hc Ha). ring.
      * apply (IH Hnd' Hin Hc Ha).
Qed.

(** X6.  The estimate of a removal is the change it makes: when the
    contract holds an active item of the child and the subject, the
    estimate that [calculate_estimated_change] gives for removing it is the
    amount by which [total_monthly_amount] of the contract changes when
    [deactivate_items] is run on that one item, which reports one row. *)
Theorem deactivation_matches_estimate :
  forall (today : date) (self : ContractChangeRequest.t) (db : DB)
         (contract child subject : nat) (i : ContractItem.t),
    ContractChangeRequest.request_type self = "remove_subject"%string ->
    ContractChangeRequest.contract self = Some contract ->
    ContractChangeRequest.child self = Some child ->
    ContractChangeRequest.subject self = Some subject ->
    primary_key ContractItem.pk (contract_items db) ->
    unique_together db ->
    In i (contract_items db) ->
    ContractItem.contract i = contract -> ContractItem.child i = child ->
    ContractItem.subject i = subject -> ContractItem.is_active i = true ->
    exists (self' : ContractChangeRequest.t) (e : Decimal),
      calculate_estimated_change today self db = Ok self'
      /\ ContractChangeRequest.estimated_monthly_change self' = Some e
      /\ fst (deactivate_items (by_keys [ContractItem.pk i]) db) = 1
      /\ (total_monthly_amount (snd (deactivate_items (by_keys [ContractItem.pk i]) db))
                               contract
          == total_monthly_amount db contract + e)%Q.
Proof.
  intros today self db contract child subject i Hty Hc Hch Hs Hpk Hu Hi Hic Hich His Hia.
  exists (ContractChangeRequest.set_estimated_monthly_change
            (Some (- ContractItem.final_price i)%Q) self),
         (- ContractItem.final_price i)%Q.
  split; [|split; [reflexivity|split]].
  - apply (remove_estimate_found today self db contract child subject i Hty Hc Hch Hs).
    apply (filter_unique
             (fun i => (ContractItem.contract i, ContractItem.child i,
                        ContractItem.subject i))
             (remove_lookup contract child subject) (contract_items db) i Hu).
    + intros y Hy. apply remove_lookup_iff in Hy. destruct Hy as [-> [-> [-> _]]].
      rewrite Hic, Hich, His. reflexivity.
    + exact Hi.
    + apply remove_lookup_iff. tauto.
  - unfold deactivate_items, queryset_update. cbn [fst].
    rewrite (filter_unique ContractItem.pk (by_keys [ContractItem.pk i])
               (contract_items db) i Hpk).
    + reflexivity.
    + intros y Hy. rewrite by_keys_one in Hy. apply Nat.eqb_eq, Hy.
    + exact Hi.
    + rewrite by_keys_one. apply Nat.eqb_refl.
  - unfold total_monthly_amount. rewrite !py_sum_Qsum.
    unfold deactivate_items, queryset_update, active_items. cbn [snd fst].
    cbn [contract_items set_contract_items].
    rewrite <- (deactivate_one_sum (contract_items db) contract i Hpk Hi Hic Hia).
    ring.
Qed.

Lemma deactivation_matches_estimate_witness :
  let stored := ContractItem.mk 1 1 1 1 40 30 true in
  let db := catalog [] [stored; ContractItem.mk 2 1 1 2 25 25 true] in
  exists (self' : ContractChangeRequest.t) (e : Decimal),
    calculate_estimated_change 5 (remove_request 1 1 1) db = Ok self'
    /\ ContractChangeRequest.estimated_monthly_change self' = Some e
    /\ fst (deactivate_items (by_keys [ContractItem.pk stored]) db) = 1
    /\ (total_monthly_amount (snd (deactivate_items (by_keys [ContractItem.pk stored]) db))
                             1%nat
        == total_monthly_amount db 1%nat + e)%Q.
Proof.
  cbv zeta.
  apply (deactivation_matches_estimate 5 (remove_request 1 1 1) _ 1%nat 1%nat 1%nat
           (ContractItem.mk 1 1 1 1 40 30 true));
    try reflexivity.
  - unfold primary_key. simpl.
    constructor; [intros [H|[]]; discriminate H|].
    constructor; [intros []|]. constructor.
  - unfold unique_together. simpl.
    constructor; [intros [H|[]]; discriminate H|].
    constructor; [intros []|]. constructor.
  - left. reflexivity.
Defined.


(** ** Change requests: failure and additions *)

Lemma filter_at_most_one {A K : Type} (key : A -> K) (p : A -> bool) (l : list A) (k : K) :
  NoDup (map key l) ->
  (forall y, p y = true -> key y = k) ->
  (List.length (filter p l) <= 1)%nat.
Proof.
  intros Hnd Hk. destruct (filter p l) as [|x rest] eqn:Hf; [simpl; lia|].
  assert (In x (filter p l)) as Hx by (rewrite Hf; left; reflexivity).
  apply filter_In in Hx. destruct Hx as [Hx Hpx].
  rewrite (filter_unique key p l x Hnd) in Hf.
  - injection Hf as <-. simpl. lia.
  - intros y Hy. rewrite (Hk y Hy), (Hk x Hpx). reflexivity.
  - exact Hx.
  - exact Hpx.
Qed.

Lemma get_raises {A : Type} (l : list A) (e : Exc) :
  get l = Raise e ->
  (e = DoesNotExist /\ l = []) \/ (e = MultipleObjectsReturned /\ (2 <= List.length l)%nat).
Proof.
  destruct l as [|x [|y t]]; simpl; intros H; try discriminate H.
  - injection H as <-. left. split; reflexivity.
  - injection H as <-. right. split; [reflexivity | lia].
Qed.

Lemma get_many {A : Type} (l : list A) :
  (2 <= List.length l)%nat -> get l = Raise MultipleObjectsReturned.
Proof.
  destruct l as [|x [|y t]]; simpl; intros H; try lia. reflexivity.
Qed.

Lemma calculate_estimated_change_assigns (today : date)
    (self self' : ContractChangeRequest.t) (db : DB) :
  calculate_estimated_change today self db = Ok self' ->
  self' = self
  \/ exists v, self' = ContractChangeRequest.set_estimated_monthly_change v self.
Proof.
  unfold calculate_estimated_change.
  destruct (String.eqb (ContractChangeRequest.request_type self) "add_subject");
    destruct (ContractChangeRequest.subject self) as [s|];
    try (destruct (current_price today db s) as [p|];
         [destruct (decimal_truthy p)|]);
    try (destruct (String.eqb (ContractChangeRequest.request_type self)
                              "remove_subject"));
    try (destruct (ContractChangeRequest.contract self) as [c|]);
    try (destruct (ContractChangeRequest.child self) as [ch|]);
    try (destruct (get (filter (remove_lookup c ch s) (contract_items db)))
           as [i|[ | | ]]);
    intros H; try discriminate H; injection H as <-;
    first [left; reflexivity | right; eexists; reflexivity].
Qed.

(** X7.  [calculate_estimated_change] raises exactly when the request is a
    [remove_subject] with contract, child and subject set and the contract
    holds two or more active items of that child and subject; the exception
    is then [MultipleObjectsReturned].  On a table that satisfies the
    uniqueness constraint of contract items it returns for every request,
    and type, contract, child and subject of the request are as before. *)
Theorem calculate_estimated_change_raises :
  forall (today : date) (self : ContractChangeRequest.t) (db : DB),
    ((exists e, calculate_estimated_change today self db = Raise e)
     <-> ContractChangeRequest.request_type self = "remove_subject"%string
         /\ exists contract child subject,
              ContractChangeRequest.contract self = Some contract
              /\ ContractChangeRequest.child self = Some child
              /\ ContractChangeRequest.subject self = Some subject
              /\ (2 <= List.length (filter (remove_lookup contract child subject)
                                           (contract_items db)))%nat)
    /\ (forall e, calculate_estimated_change today self db = Raise e ->
                  e = MultipleObjectsReturned)
    /\ (unique_together db ->
        exists self',
          calculate_estimated_change today self db = Ok self'
          /\ ContractChangeRequest.request_type self'
             = ContractChangeRequest.request_type self
          /\ ContractChangeRequest.contract self' = ContractChangeRequest.contract self
          /\ ContractChangeRequest.child self' = ContractChangeRequest.child self
          /\ ContractChangeRequest.subject self' = ContractChangeRequest.subject self).
Proof.
  intros today self db.
  assert (forall e, calculate_estimated_change today self db = Raise e ->
            e = MultipleObjectsReturned
            /\ ContractChangeRequest.request_type self = "remove_subject"%string
            /\ exists contract child subject,
                 ContractChangeRequest.contract self = Some contract
                 /\ ContractChangeRequest.child self = Some child
                 /\ ContractChangeRequest.subject self = Some subject
                 /\ (2 <= List.length (filter (remove_lookup contract child subject)
                                              (contract_items db)))%nat) as Hraise.
  { intros e. unfold calculate_estimated_change.
    destruct (String.eqb (ContractChangeRequest.request_type self) "add_subject") eqn:Ea;
      destruct (ContractChangeRequest.subject self) as [s|] eqn:Es;
      try (destruct (current_price today db s) as [p|];
           [destruct (decimal_truthy p)|]; discriminate);
      (destruct (String.eqb (ContractChangeRequest.request_type self) "remove_subject")
         eqn:Er; [|discriminate]);
      apply String.eqb_eq in Er;
      destruct (ContractChangeRequest.contract self) as [c|]; try discriminate;
      destruct (ContractChangeRequest.child self) as [ch|]; try discriminate.
    destruct (get (filter (remove_lookup c ch s) (contract_items db))) as [i|e'] eqn:Eg;
      [discriminate|].
    destruct (get_raises _ _ Eg) as [[-> _]|[-> Hlen]]; [discriminate|].
    intros H. injection H as <-.
    split; [reflexivity|]. split; [exact Er|].
    exists c, ch, s. repeat split; assumption. }
  split; [split|split].
  - intros [e He]. destruct (Hraise e He) as [_ H]. exact H.
  - intros [Hty [c [ch [s [Hc [Hch [Hs Hlen]]]]]]].
    exists MultipleObjectsReturned.
    unfold calculate_estimated_change. rewrite Hty, Hc, Hch, Hs. simpl.
    rewrite (get_many _ Hlen). reflexivity.
  - intros e He. destruct (Hraise e He) as [H _]. exact H.
  - intros Hu.
    destruct (calculate_estimated_change today self db) as [self'|e] eqn:E.
    + exists self'. split; [reflexivity|].
      destruct (calculate_estimated_change_assigns today self self' db E)
        as [->|[v ->]]; repeat split; reflexivity.
    + exfalso. destruct (Hraise e eq_refl) as [_ [_ [c [ch [s [_ [_ [_ Hlen]]]]]]]].
      pose proof (filter_at_most_one
                    (fun i => (ContractItem.contract i, ContractItem.child i,
                               ContractItem.subject i))
                    (remove_lookup c ch s) (contract_items db) (c, ch, s) Hu) as Hle.
      assert (List.length (filter (remove_lookup c ch s) (contract_items db)) <= 1)%nat
        as Hone.
      { apply Hle. intros y Hy. apply remove_lookup_iff in Hy.
        destruct Hy as [-> [-> [-> _]]]. reflexivity. }
      lia.
Qed.

Lemma current_price_reads (today : date) (db db' : DB) (subject : nat) :
  price_lists db' = price_lists db ->
  current_price today db' subject = current_price today db subject.
Proof. intros H. unfold current_price. rewrite H. reflexivity. Qed.

Lemma decimal_truthy_iff (p : Decimal) : decimal_truthy p = true <-> ~ (p == 0)%Q.
Proof.
  unfold decimal_truthy. rewrite negb_true_iff. split.
  - intros H Hp. apply Qeq_bool_iff in Hp. congruence.
  - intros H. destruct (Qeq_bool p 0) eqn:E; [|reflexivity].
    apply Qeq_bool_iff in E. contradiction.
Qed.

(** X8.  For a request of type [add_subject] with a subject,
    [calculate_estimated_change] sets the estimate to the subject's current
    price when there is one and it is not 0; a current price of 0 and a
    subject without an eligible price record both leave the request as it
    was.  The estimate reads the price list alone: it is the same on every
    database with that price list, whatever the discounts and the items of
    the contract. *)
Theorem add_subject_estimate :
  forall (today : date) (self : ContractChangeRequest.t) (db : DB) (subject : nat),
    ContractChangeRequest.request_type self = "add_subject"%string ->
    ContractChangeRequest.subject self = Some subject ->
    (forall p, current_price today db subject = Some p -> ~ (p == 0)%Q ->
               calculate_estimated_change today self db
               = Ok (ContractChangeRequest.mk
                       (ContractChangeRequest.contract self)
                       (ContractChangeRequest.child self)
                       (ContractChangeRequest.request_type self)
                       (ContractChangeRequest.subject self)
                       (Some p)))
    /\ (forall p, current_price today db subject = Some p -> (p == 0)%Q ->
                  calculate_estimated_change today self db = Ok self)
    /\ ((forall r, In r (price_lists db) -> ~ eligible today subject r) ->
        calculate_estimated_change today self db = Ok self)
    /\ (forall db', price_lists db' = price_lists db ->
                    calculate_estimated_change today self db'
                    = calculate_estimated_change today self db).
Proof.
  intros today self db subject Hty Hs.
  unfold calculate_estimated_change. rewrite Hty, Hs. simpl.
  split; [|split; [|split]].
  - intros p Hp Hnz. rewrite Hp.
    rewrite (proj2 (decimal_truthy_iff p) Hnz).
    unfold ContractChangeRequest.set_estimated_monthly_change.
    rewrite Hty, Hs. reflexivity.
  - intros p Hp Hz. rewrite Hp.
    destruct (decimal_truthy p) eqn:E; [|reflexivity].
    apply decimal_truthy_iff in E. contradiction.
  - intros Hnone. rewrite (proj2 (current_price_none today db subject) Hnone).
    reflexivity.
  - intros db' Hdb. rewrite (current_price_reads today db db' subject Hdb). reflexivity.
Qed.

Lemma add_subject_estimate_witness :
  calculate_estimated_change (Date.ymd 2024 7 1) (add_request 1) mathematik_prices
  = Ok (ContractChangeRequest.mk None None "add_subject" (Some 1%nat) (Some 25%Q)).
Proof.
  apply (proj1 (add_subject_estimate (Date.ymd 2024 7 1) (add_request 1)
                  mathematik_prices 1%nat eq_refl eq_refl)).
  - reflexivity.
  - intro H. vm_compute in H. discriminate H.
Defined.


(** ** Admin actions on invoices *)

Lemma queryset_update_In {A : Type} (change : A -> A) (queryset : A -> bool)
    (rows : list A) (r' : A) :
  In r' (snd (queryset_update change queryset rows))
  <-> exists r, In r rows /\ r' = if queryset r then change r else r.
Proof.
  unfold queryset_update. cbn [snd]. rewrite in_map_iff.
  split; intros [r [H1 H2]]; exists r; split; auto.
Qed.

(** X9.  [mark_as_paid] reports the number of rows of the query set; after
    it every row of the query set has status ['paid'], with its key, its
    due date and its amounts as before, and is not overdue on any day, with
    0 days overdue; the rows outside the query set stay in the table as
    they were. *)
Theorem mark_as_paid_clears_overdue :
  forall (queryset : Invoice.t -> bool) (db : DB),
    fst (mark_as_paid queryset db) = count (filter queryset (invoices db))
    /\ (forall r, In r (invoices db) -> queryset r = true ->
          exists r', In r' (invoices (snd (mark_as_paid queryset db)))
                     /\ Invoice.pk r' = Invoice.pk r
                     /\ Invoice.due_date r' = Invoice.due_date r
                     /\ Invoice.total_amount r' = Invoice.total_amount r
                     /\ Invoice.status r' = "paid"%string
                     /\ forall today, is_overdue today r' = false
                                      /\ days_overdue today r' = 0)
    /\ (forall r, In r (invoices db) -> queryset r = false ->
                  In r (invoices (snd (mark_as_paid queryset db))))
    /\ (forall r', In r' (invoices (snd (mark_as_paid queryset db))) ->
                   In r' (invoices db) \/ forall today, is_overdue today r' = false).
Proof.
  intros queryset db. unfold mark_as_paid. cbn [fst snd].
  change (invoices (set_invoices ?l db)) with l.
  split; [reflexivity|]. split; [|split].
  - intros r Hr Hq. exists (Invoice_set_status "paid" r). split.
    + apply queryset_update_In. exists r. rewrite Hq. split; [exact Hr | reflexivity].
    + repeat split; reflexivity.
  - intros r Hr Hq. apply queryset_update_In. exists r. rewrite Hq.
    split; [exact Hr | reflexivity].
  - intros r' Hr'. apply queryset_update_In in Hr'. destruct Hr' as [r [Hr ->]].
    destruct (queryset r); [right; reflexivity | left; exact Hr].
Qed.

(** X10.  [mark_as_sent] does not look at the status a row has: after it a
    row of the query set is overdue exactly when its due date is before
    today, so a paid invoice with a past due date, which was not overdue,
    is overdue once the action has marked it as sent. *)
Theorem mark_as_sent_reopens :
  forall (queryset : Invoice.t -> bool) (db : DB) (r : Invoice.t) (today : date),
    In r (invoices db) ->
    queryset r = true ->
    In (Invoice_set_status "sent" r) (invoices (snd (mark_as_sent queryset db)))
    /\ (is_overdue today (Invoice_set_status "sent" r) = true
        <-> Invoice.due_date r < today)
    /\ (Invoice.status r = "paid"%string -> Invoice.due_date r < today ->
        is_overdue today r = false
        /\ is_overdue today (Invoice_set_status "sent" r) = true
        /\ days_overdue today (Invoice_set_status "sent" r) = today - Invoice.due_date r).
Proof.
  intros queryset db r today Hr Hq. split; [|split].
  - unfold mark_as_sent. cbn [snd]. change (invoices (set_invoices ?l db)) with l.
    apply queryset_update_In. exists r. rewrite Hq. split; [exact Hr | reflexivity].
  - rewrite is_overdue_iff. simpl. split; [tauto|].
    intros H. split; [discriminate | exact H].
  - intros Hp Hd.
    assert (is_overdue today (Invoice_set_status "sent" r) = true) as Ho
      by (apply is_overdue_iff; simpl; split; [discriminate | exact Hd]).
    split; [|split].
    + unfold is_overdue. rewrite Hp. reflexivity.
    + exact Ho.
    + unfold days_overdue. rewrite Ho. reflexivity.
Qed.

Lemma mark_as_sent_reopens_witness :
  let paid := Invoice.mk 1 65 0 65 "paid" 10 in
  let db := mkDB [] [] [] [] [paid] [] in
  In (Invoice_set_status "sent" paid) (invoices (snd (mark_as_sent (fun _ => true) db)))
  /\ is_overdue 20 paid = false
  /\ is_overdue 20 (Invoice_set_status "sent" paid) = true.
Proof.
  cbv zeta.
  pose proof (mark_as_sent_reopens (fun _ => true)
                (mkDB [] [] [] [] [Invoice.mk 1 65 0 65 "paid" 10] [])
                (Invoice.mk 1 65 0 65 "paid" 10) 20
                (or_introl eq_refl) eq_refl) as [Hin [_ H]].
  split; [exact Hin|].
  destruct (H eq_refl ltac:(simpl; lia)) as [H1 [H2 _]].
  split; assumption.
Defined.


(** ** Debts *)

Lemma upsert_upsert {A : Type} (pk : A -> nat) (a b : A) (rows : list A) :
  pk a = pk b ->
  upsert pk b (upsert pk a rows) = upsert pk b rows.
Proof.
  intros Hk.
  assert (existsb (fun r => Nat.eqb (pk r) (pk b)) (upsert pk a rows) = true) as E.
  { apply existsb_exists. exists a. split; [apply upsert_In | apply Nat.eqb_eq, Hk]. }
  unfold upsert at 1. rewrite E. unfold upsert. rewrite Hk.
  destruct (existsb (fun r => Nat.eqb (pk r) (pk b)) rows) eqn:E0.
  - rewrite map_map. apply map_ext. intros r.
    destruct (Nat.eqb (pk r) (pk b)) eqn:Er.
    + rewrite Hk, Nat.eqb_refl. reflexivity.
    + rewrite Er. reflexivity.
  - rewrite map_app. simpl. rewrite Hk, Nat.eqb_refl. f_equal.
    rewrite <- (map_id rows) at 2. apply map_ext_in. intros r Hr.
    destruct (Nat.eqb (pk r) (pk b)) eqn:Er; [|reflexivity].
    exfalso. assert (existsb (fun r => Nat.eqb (pk r) (pk b)) rows = true) as Ht
      by (apply existsb_exists; exists r; split; assumption).
    congruence.
Qed.

(** X11.  Resolving a debt again overwrites the first resolution:
    [mark_as_resolved] on a later day, on the instance and the table the
    first call left, gives what one call on the later day gives, so the
    first [resolved_date] is lost.  The call never changes
    [original_amount], [overdue_since] or the late fee, so a resolved debt
    has as many days overdue as before. *)
Theorem Debt_mark_as_resolved_last_wins :
  forall (day1 day2 : date) (self : Debt.t) (debts : list Debt.t),
    Debt_mark_as_resolved day2 (fst (Debt_mark_as_resolved day1 self debts))
                               (snd (Debt_mark_as_resolved day1 self debts))
    = Debt_mark_as_resolved day2 self debts
    /\ Debt.resolved_date (fst (Debt_mark_as_resolved day2 self debts)) = Some day2
    /\ Debt.is_resolved (fst (Debt_mark_as_resolved day2 self debts)) = true
    /\ (Debt.remaining_amount (fst (Debt_mark_as_resolved day2 self debts)) == 0)%Q
    /\ Debt.original_amount (fst (Debt_mark_as_resolved day2 self debts))
       = Debt.original_amount self
    /\ Debt.late_fee_applied (fst (Debt_mark_as_resolved day2 self debts))
       = Debt.late_fee_applied self
    /\ (forall today,
          Debt_days_overdue today (fst (Debt_mark_as_resolved day2 self debts))
          = Debt_days_overdue today self)
    /\ In (fst (Debt_mark_as_resolved day2 self debts))
          (snd (Debt_mark_as_resolved day2 self debts)).
Proof.
  intros day1 day2 self debts. unfold Debt_mark_as_resolved. cbn [fst snd].
  split.
  - cbn [Debt.pk Debt.invoice Debt.original_amount Debt.due_date Debt.overdue_since
         Debt.late_fee_applied].
    f_equal. apply upsert_upsert. reflexivity.
  - repeat split; try reflexivity. apply upsert_In.
Qed.

(** A loop that saves a changed copy of every row of a query set, on a
    table with distinct keys, rewrites exactly the rows of the query set. *)
Lemma fold_upsert_rows {A : Type} (pk : A -> nat) (change : A -> A) (rows : list A) :
  primary_key pk rows ->
  (forall r, pk (change r) = pk r) ->
  forall (items : list A) (processed : A -> bool) (n : Z),
    (forall x, In x items -> In x rows) ->
    fold_left (fun (state : Z * list A) (x : A) =>
                 (fst state + 1, upsert pk (change x) (snd state)))
              items (n, map (fun r => if processed r then change r else r) rows)
    = (n + count items,
       map (fun r => if processed r || existsb (fun x => Nat.eqb (pk x) (pk r)) items
                     then change r else r) rows).
Proof.
  intros Hpk Hch. induction items as [|x items IH]; intros processed n Hin.
  - cbn [fold_left existsb]. f_equal; [unfold count; simpl; lia|].
    apply map_ext. intros r. rewrite orb_false_r. reflexivity.
  - cbn [fold_left fst snd].
    assert (In x rows) as Hx by (apply Hin; left; reflexivity).
    rewrite upsert_map_present.
    + rewrite map_map.
      rewrite (map_ext_in _ (fun r => if processed r || Nat.eqb (pk x) (pk r)
                                      then change r else r)).
      * rewrite (IH (fun r => processed r || Nat.eqb (pk x) (pk r)) (n + 1))
          by (intros y Hy; apply Hin; right; exact Hy).
        f_equal; [unfold count; simpl List.length; lia|].
        apply map_ext. intros r. cbn [existsb]. rewrite orb_assoc. reflexivity.
      * intros r Hr.
        assert (pk (if processed r then change r else r) = pk r) as ->
          by (destruct (processed r); [apply Hch | reflexivity]).
        rewrite Hch, (Nat.eqb_sym (pk x)).
        destruct (Nat.eqb (pk r) (pk x)) eqn:Ek.
        -- apply Nat.eqb_eq in Ek.
           rewrite (primary_key_inj pk rows r x Hpk Hr Hx Ek).
           rewrite orb_true_r. reflexivity.
        -- rewrite orb_false_r. reflexivity.
    + apply existsb_exists. exists (if processed x then change x else x). split.
      * apply in_map_iff. exists x. split; [reflexivity | exact Hx].
      * apply Nat.eqb_eq. rewrite Hch.
        destruct (processed x); [apply Hch | reflexivity].
Qed.

Lemma selected_rows_by_key {A : Type} (pk : A -> nat) (queryset : A -> bool)
    (rows : list A) (r : A) :
  primary_key pk rows ->
  In r rows ->
  existsb (fun x => Nat.eqb (pk x) (pk r)) (filter queryset rows) = queryset r.
Proof.
  intros Hpk Hr. destruct (queryset r) eqn:Hq.
  - apply existsb_exists. exists r. split; [|apply Nat.eqb_refl].
    apply filter_In. split; assumption.
  - destruct (existsb _ _) eqn:E; [|reflexivity].
    apply existsb_exists in E. destruct E as [x [Hx Hk]].
    apply filter_In in Hx. destruct Hx as [Hx Hqx]. apply Nat.eqb_eq in Hk.
    rewrite (primary_key_inj pk rows x r Hpk Hx Hr Hk) in Hqx. congruence.
Qed.

(** X12.  On a debt table with distinct keys, the admin action
    [mark_as_resolved] reports the number of rows of the query set, makes
    each of them resolved today with nothing remaining, and leaves every
    row outside the query set as it was. *)
Theorem DebtAdmin_mark_as_resolved_rows :
  forall (today : date) (queryset : Debt.t -> bool) (debts : list Debt.t),
    primary_key Debt.pk debts ->
    DebtAdmin_mark_as_resolved today queryset debts
    = (count (filter queryset debts),
       map (fun r => if queryset r
                     then Debt.mk (Debt.pk r) (Debt.invoice r) (Debt.original_amount r) 0%Q
                                  (Debt.due_date r) (Debt.overdue_since r) true (Some today)
                                  (Debt.late_fee_applied r)
                     else r)
           debts).
Proof.
  intros today queryset debts Hpk.
  pose proof (fold_upsert_rows Debt.pk
                (fun r => Debt.mk (Debt.pk r) (Debt.invoice r) (Debt.original_amount r)
                                  0%Q (Debt.due_date r) (Debt.overdue_since r) true
                                  (Some today) (Debt.late_fee_applied r))
                debts Hpk (fun r => eq_refl) (filter queryset debts) (fun _ => false) 0)
    as H.
  cbv beta iota in H. cbn [orb] in H. rewrite map_id in H.
  unfold DebtAdmin_mark_as_resolved, Debt_mark_as_resolved. cbn [snd].
  rewrite H by (intros x Hx; apply filter_In in Hx; tauto).
  f_equal. apply map_ext_in. intros r Hr.
  rewrite (selected_rows_by_key Debt.pk queryset debts r Hpk Hr). reflexivity.
Qed.

Lemma DebtAdmin_mark_as_resolved_rows_witness :
  let open := Debt.mk 1 1 65 65 10 (Some 11) false None 0 in
  let other := Debt.mk 2 2 40 40 10 None false None 0 in
  DebtAdmin_mark_as_resolved 20 (fun r => Nat.eqb (Debt.pk r) 1) [open; other]
  = (1, [Debt.mk 1 1 65 0 10 (Some 11) true (Some 20) 0; other]).
Proof.
  cbv zeta.
  rewrite DebtAdmin_mark_as_resolved_rows.
  - reflexivity.
  - unfold primary_key. simpl.
    constructor; [intros [H|[]]; discriminate H|].
    constructor; [intros []|]. constructor.
Defined.


(** ** Groups *)

Lemma current_enrollment_count_nonneg (enrollments : list GroupEnrollment.t)
    (self : Group.t) :
  0 <= current_enrollment_count enrollments self.
Proof. unfold current_enrollment_count, count. lia. Qed.

Lemma current_enrollment_count_app (l1 l2 : list GroupEnrollment.t) (self : Group.t) :
  current_enrollment_count (l1 ++ l2) self
  = current_enrollment_count l1 self + current_enrollment_count l2 self.
Proof.
  unfold current_enrollment_count, count.
  rewrite filter_app, length_app. lia.
Qed.

(** X13.  [Group.clean] never raises the capacity and changes no other
    field: the cleaned group is the group with its key, subject, type and
    active flag as they were, and only [max_students] possibly lowered;
    cleaning twice is cleaning once; a group that is not individual is left
    as it is; a cleaned individual group has the smaller of 1 and its
    capacity, so room for at most one student, and with one active
    enrollment or more it is full. *)
Theorem Group_clean_individual :
  forall (enrollments : list GroupEnrollment.t) (self : Group.t),
    Group_clean (Group_clean self) = Group_clean self
    /\ Group.max_students (Group_clean self) <= Group.max_students self
    /\ Group.pk (Group_clean self) = Group.pk self
    /\ Group.group_type (Group_clean self) = Group.group_type self
    /\ Group.subject (Group_clean self) = Group.subject self
    /\ Group.is_active (Group_clean self) = Group.is_active self
    /\ Group_clean self
       = Group.mk (Group.pk self) (Group.subject self) (Group.group_type self)
                  (Group.max_students (Group_clean self)) (Group.is_active self)
    /\ (Group.group_type self <> "individual"%string -> Group_clean self = self)
    /\ (Group.group_type self = "individual"%string ->
        Group.max_students (Group_clean self) = Z.min 1 (Group.max_students self)
        /\ Group.max_students (Group_clean self) <= 1
        /\ (1 <= current_enrollment_count enrollments self ->
            is_full enrollments (Group_clean self) = true)).
Proof.
  intros enrollments self.
  destruct (String.eqb (Group.group_type self) "individual"
            && (Group.max_students self >? 1)) eqn:Ec.
  - assert (Group_clean self
            = Group.mk (Group.pk self) (Group.subject self) (Group.group_type self) 1
                       (Group.is_active self)) as Hc
      by (unfold Group_clean; rewrite Ec; reflexivity).
    apply andb_true_iff in Ec. destruct Ec as [Et Em].
    apply String.eqb_eq in Et. rewrite Z.gtb_ltb in Em. apply Z.ltb_lt in Em.
    rewrite Hc.
    cbn [Group.max_students Group.pk Group.group_type Group.subject Group.is_active].
    split; [unfold Group_clean; cbn [Group.max_students]; rewrite andb_false_r;
            reflexivity|].
    split; [lia|]. split; [reflexivity|]. split; [reflexivity|].
    split; [reflexivity|]. split; [reflexivity|]. split; [reflexivity|].
    split; [intros H; contradiction|].
    intros _. split; [lia|]. split; [lia|].
    intros Hn. unfold is_full, available_spots, current_enrollment_count in *.
    cbn [Group.max_students Group.pk]. apply Z.leb_le. lia.
  - assert (Group_clean self = self) as Hc
      by (unfold Group_clean; rewrite Ec; reflexivity).
    rewrite !Hc.
    split; [reflexivity|]. split; [lia|]. split; [reflexivity|].
    split; [reflexivity|]. split; [reflexivity|]. split; [reflexivity|].
    split; [destruct self; reflexivity|]. split; [reflexivity|].
    intros Ht. rewrite Ht in Ec. cbn [String.eqb andb] in Ec.
    simpl in Ec. rewrite Z.gtb_ltb in Ec. apply Z.ltb_ge in Ec.
    split; [lia|]. split; [exact Ec|].
    intros Hn. unfold is_full, available_spots. apply Z.leb_le. lia.
Qed.

Lemma current_enrollment_count_one (e : GroupEnrollment.t) (self : Group.t) :
  current_enrollment_count [e] self
  = if Nat.eqb (GroupEnrollment.group e) (Group.pk self)
       && String.eqb (GroupEnrollment.status e) "active"
    then 1 else 0.
Proof.
  unfold current_enrollment_count, count. simpl.
  destruct (Nat.eqb (GroupEnrollment.group e) (Group.pk self)
            && String.eqb (GroupEnrollment.status e) "active"); reflexivity.
Qed.

(** X14.  A group is full exactly when its active enrollments number at
    least [max_students]; a group with [max_students] of 0 or less is full
    with no enrollment at all.  A new active enrollment in the group takes
    one spot, any other new enrollment takes none, and no new enrollment
    makes a full group not full. *)
Theorem is_full_enrollments :
  forall (enrollments : list GroupEnrollment.t) (self : Group.t),
    (is_full enrollments self = true
     <-> Group.max_students self <= current_enrollment_count enrollments self)
    /\ (Group.max_students self <= 0 -> is_full [] self = true)
    /\ (forall e, GroupEnrollment.group e = Group.pk self ->
                  GroupEnrollment.status e = "active"%string ->
                  available_spots (enrollments ++ [e]) self
                  = available_spots enrollments self - 1)
    /\ (forall e, GroupEnrollment.group e <> Group.pk self
                  \/ GroupEnrollment.status e <> "active"%string ->
                  available_spots (enrollments ++ [e]) self
                  = available_spots enrollments self)
    /\ (forall e, is_full enrollments self = true ->
                  is_full (enrollments ++ [e]) self = true).
Proof.
  intros enrollments self. unfold is_full, available_spots.
  split; [rewrite Z.leb_le; lia|].
  split; [intros H; apply Z.leb_le; unfold current_enrollment_count, count; simpl; lia|].
  split; [|split].
  - intros e Hg Hs. rewrite current_enrollment_count_app, current_enrollment_count_one.
    rewrite Hg, Hs, Nat.eqb_refl. simpl. lia.
  - intros e He. rewrite current_enrollment_count_app, current_enrollment_count_one.
    destruct (Nat.eqb (GroupEnrollment.group e) (Group.pk self)) eqn:Eg;
      destruct (String.eqb (GroupEnrollment.status e) "active") eqn:Es;
      cbn [andb]; try lia.
    apply Nat.eqb_eq in Eg. apply String.eqb_eq in Es. destruct He; contradiction.
  - intros e. rewrite !Z.leb_le, current_enrollment_count_app.
    pose proof (current_enrollment_count_nonneg [e] self). lia.
Qed.


(** ** Lesson times *)

Lemma end_time_cases (today : date) (self : Schedule.t) :
  valid_date today ->
  valid_time (Schedule.start_time self) ->
  end_time today self
  = if (0 <? today + (Schedule.start_time self + Schedule.duration self * 60000000)
                     / day_us)
       && (today + (Schedule.start_time self + Schedule.duration self * 60000000)
                   / day_us <=? MAXORDINAL)
    then Returned ((Schedule.start_time self + Schedule.duration self * 60000000)
                   mod day_us)
    else OverflowError.
Proof.
  unfold valid_date, valid_time, MAXORDINAL, day_us. intros Hd Ht.
  unfold end_time, timedelta_minutes, datetime_add, combine, MAXORDINAL, day_us.
  cbn [dt_date dt_time].
  set (s := Schedule.start_time self) in *.
  set (m := Schedule.duration self * 60000000) in *.
  assert (m / 86400000000 <= (s + m) / 86400000000 <= m / 86400000000 + 1) as Hq.
  { pose proof (Z.div_mod m 86400000000 ltac:(lia)) as Hm.
    pose proof (Z.mod_pos_bound m 86400000000 ltac:(lia)) as Hr.
    split.
    - apply Z.div_le_mono; lia.
    - assert ((s + m) / 86400000000 < m / 86400000000 + 2); [|lia].
      apply Z.div_lt_upper_bound; lia. }
  destruct ((-999999999 <=? m / 86400000000) && (m / 86400000000 <=? 999999999)) eqn:E.
  - destruct ((0 <? today + (s + m) / 86400000000)
              && (today + (s + m) / 86400000000 <=? 3652059)); reflexivity.
  - assert ((0 <? today + (s + m) / 86400000000)
            && (today + (s + m) / 86400000000 <=? 3652059) = false) as ->;
      [|reflexivity].
    apply andb_false_iff in E. apply andb_false_iff.
    destruct E as [E|E].
    + apply Z.leb_gt in E. left. apply Z.ltb_ge. lia.
    + apply Z.leb_gt in E. right. apply Z.leb_gt. lia.
Qed.

(** X15.  For a schedule with a start time, on any day, [end_time] raises
    [OverflowError] exactly when start plus duration falls on a date
    outside the years 1 to 9999, and otherwise returns a time of day, the
    start time moved by [duration] minutes around the clock.  A lesson of
    less than a day that does not start on the last day of the calendar
    always has an end time; when it runs to midnight or past it, the end
    time is earlier in the day than the start time. *)
Theorem end_time_wraps :
  forall (today : date) (self : Schedule.t),
    valid_date today ->
    valid_time (Schedule.start_time self) ->
    (end_time today self = OverflowError
     <-> ~ valid_date (today + (Schedule.start_time self
                                + Schedule.duration self * 60000000) / day_us))
    /\ (forall t, end_time today self = Returned t ->
                  valid_time t
                  /\ t = (Schedule.start_time self + Schedule.duration self * 60000000)
                         mod day_us)
    /\ (0 <= Schedule.duration self < 1440 -> today < MAXORDINAL ->
        exists t,
          end_time today self = Returned t
          /\ (Schedule.start_time self + Schedule.duration self * 60000000 < day_us ->
              t = Schedule.start_time self + Schedule.duration self * 60000000)
          /\ (day_us <= Schedule.start_time self + Schedule.duration self * 60000000 ->
              t = Schedule.start_time self + Schedule.duration self * 60000000 - day_us
              /\ t < Schedule.start_time self)).
Proof.
  intros today self Hd Ht. rewrite (end_time_cases today self Hd Ht).
  unfold valid_date, valid_time, MAXORDINAL, day_us in *.
  set (s := Schedule.start_time self) in *.
  set (m := Schedule.duration self * 60000000) in *.
  split; [|split].
  - destruct ((0 <? today + (s + m) / 86400000000)
              && (today + (s + m) / 86400000000 <=? 3652059)) eqn:E.
    + apply andb_true_iff in E. destruct E as [E1 E2].
      apply Z.ltb_lt in E1. apply Z.leb_le in E2.
      split; [discriminate | intros H; exfalso; apply H; lia].
    + apply andb_false_iff in E. split; [|reflexivity]. intros _ H.
      destruct E as [E|E]; [apply Z.ltb_ge in E | apply Z.leb_gt in E]; lia.
  - intros t. destruct ((0 <? today + (s + m) / 86400000000)
                        && (today + (s + m) / 86400000000 <=? 3652059));
      [|discriminate].
    intros H. injection H as <-. split; [|reflexivity].
    apply Z.mod_pos_bound. lia.
  - intros Hdur Hlast.
    assert (0 <= m < 86400000000) as Hm by (unfold m; lia).
    destruct (Z_lt_le_dec (s + m) 86400000000) as [Hlt|Hge].
    + assert ((s + m) / 86400000000 = 0) as Hq by (apply Z.div_small; lia).
      assert ((s + m) mod 86400000000 = s + m) as Hr by (apply Z.mod_small; lia).
      rewrite Hq, Hr.
      replace ((0 <? today + 0) && (today + 0 <=? 3652059)) with true
        by (symmetry; apply andb_true_iff; split;
            [apply Z.ltb_lt | apply Z.leb_le]; lia).
      exists (s + m). split; [reflexivity|]. split; [reflexivity | lia].
    + assert ((s + m) / 86400000000 = 1) as Hq
        by (symmetry; apply (Z.div_unique (s + m) 86400000000 1 (s + m - 86400000000));
            lia).
      assert ((s + m) mod 86400000000 = s + m - 86400000000) as Hr
        by (symmetry; apply (Z.mod_unique (s + m) 86400000000 1 (s + m - 86400000000));
            lia).
      rewrite Hq, Hr.
      replace ((0 <? today + 1) && (today + 1 <=? 3652059)) with true
        by (symmetry; apply andb_true_iff; split;
            [apply Z.ltb_lt | apply Z.leb_le]; lia).
      exists (s + m - 86400000000). split; [reflexivity|].
      split; [lia | intros _; split; [reflexivity | lia]].
Qed.

Lemma end_time_wraps_witness :
  end_time (Date.ymd 2024 3 1) (Schedule.mk 1 1 0 (hms 23 30 0) 45)
  = Returned (hms 0 15 0).
Proof.
  assert (valid_date (Date.ymd 2024 3 1)) as Hd by (vm_compute; split; discriminate).
  assert (valid_time (Schedule.start_time (Schedule.mk 1 1 0 (hms 23 30 0) 45))) as Ht
    by (vm_compute; split; [discriminate | reflexivity]).
  destruct (end_time_wraps (Date.ymd 2024 3 1) (Schedule.mk 1 1 0 (hms 23 30 0) 45)
              Hd Ht) as [_ [_ H]].
  destruct (H ltac:(simpl; lia) ltac:(vm_compute; reflexivity)) as [t [He [_ Hw]]].
  rewrite He. f_equal.
  destruct (Hw ltac:(vm_compute; discriminate)) as [-> _]. reflexivity.
Defined.

(** X16.  The [addtime] filter and [Schedule.end_time] agree: applied to
    the start time and the duration of a schedule, the filter returns the
    schedule's end time, and raises when the property raises; with a
    duration of 0 it returns the start time without computing.  With no
    time or no duration it returns what it was given. *)
Theorem addtime_is_end_time :
  forall (today : date) (self : Schedule.t),
    valid_date today ->
    valid_time (Schedule.start_time self) ->
    addtime today (Some (Schedule.start_time self)) (Some (Schedule.duration self))
    = match end_time today self with
      | Returned t => Returned (Some t)
      | OverflowError => OverflowError
      end
    /\ (forall duration, addtime today None duration = Returned None)
    /\ (forall time_obj, addtime today time_obj None = Returned time_obj).
Proof.
  intros today self Hd Ht. split; [|split].
  - unfold addtime. destruct (Schedule.duration self =? 0) eqn:E.
    + apply Z.eqb_eq in E. rewrite (end_time_cases today self Hd Ht). rewrite E.
      unfold valid_date, valid_time, MAXORDINAL, day_us in *.
      rewrite Z.mul_0_l, Z.add_0_r.
      rewrite Z.div_small, Z.mod_small by lia.
      replace ((0 <? today + 0) && (today + 0 <=? 3652059)) with true
        by (symmetry; apply andb_true_iff; split;
            [apply Z.ltb_lt | apply Z.leb_le]; lia).
      reflexivity.
    + unfold end_time.
      destruct (timedelta_minutes (Schedule.duration self)) as [delta|];
        [|reflexivity].
      destruct (datetime_add (combine today (Schedule.start_time self)) delta);
        reflexivity.
  - intros duration. reflexivity.
  - intros [t|]; reflexivity.
Qed.

Lemma addtime_is_end_time_witness :
  addtime (Date.ymd 2024 3 1) (Some (hms 23 30 0)) (Some 45)
  = match end_time (Date.ymd 2024 3 1) (Schedule.mk 1 1 0 (hms 23 30 0) 45) with
    | Returned t => Returned (Some t)
    | OverflowError => OverflowError
    end.
Proof.
  assert (valid_date (Date.ymd 2024 3 1)) as Hd by (vm_compute; split; discriminate).
  assert (valid_time (Schedule.start_time (Schedule.mk 1 1 0 (hms 23 30 0) 45))) as Ht
    by (vm_compute; split; [discriminate | reflexivity]).
  exact (proj1 (addtime_is_end_time (Date.ymd 2024 3 1)
                  (Schedule.mk 1 1 0 (hms 23 30 0) 45) Hd Ht)).
Defined.


(** ** Columns the calculations do not read *)

Lemma first_map {A B : Type} (g : A -> B) (l : list A) :
  first (map g l) = option_map g (first l).
Proof. destruct l; reflexivity. Qed.

(** X17.  [current_price] does not read [valid_to]: whatever end of
    validity each price record is given, the current price of every subject
    on every day is the same, so a record whose validity has ended still
    sets the price until a later record starts. *)
Theorem current_price_ignores_valid_to :
  forall (today : date) (db : DB) (subject : nat) (ends : PriceList.t -> option date),
    current_price today
      (set_price_lists (map (fun r => PriceList_set_valid_to (ends r) r) (price_lists db))
                       db)
      subject
    = current_price today db subject.
Proof.
  intros today db subject ends. unfold current_price. cbn [price_lists set_price_lists].
  rewrite filter_map_same by reflexivity.
  rewrite order_by_desc_map by reflexivity.
  rewrite first_map.
  destruct (first _); reflexivity.
Qed.

Lemma fold_left_discount_step_map (n : Z) (base : Decimal)
    (g : Discount.t -> Discount.t) (l : list Discount.t) (acc : Decimal) :
  (forall d total, discount_step n base total (g d) = discount_step n base total d) ->
  fold_left (discount_step n base) (map g l) acc
  = fold_left (discount_step n base) l acc.
Proof.
  intros Hg. revert acc. induction l as [|d l IH]; intros acc; simpl; [reflexivity|].
  rewrite Hg. apply IH.
Qed.

(** X18.  [calculate_discounts] reads neither the active flag of a rule's
    discount type nor the rule's family flag: whatever these are set to on
    each rule, the result is the same for every item, so a rule of a
    deactivated discount type still applies. *)
Theorem calculate_discounts_ignores_flags :
  forall (today : date) (db : DB) (self : ContractItem.t)
         (type_active family : Discount.t -> bool),
    calculate_discounts today
      (set_discounts
         (map (fun d => Discount_set_flags (type_active d) (family d) d) (discounts db))
         db)
      self
    = calculate_discounts today db self.
Proof.
  intros today db self type_active family.
  unfold calculate_discounts, active_items. cbn [discounts set_discounts contract_items].
  rewrite filter_map_same by reflexivity.
  rewrite order_by_desc_map by reflexivity.
  apply fold_left_discount_step_map. reflexivity.
Qed.


(** ** Invoice totals *)

Lemma existsb_false_iff {A : Type} (f : A -> bool) (l : list A) :
  existsb f l = false <-> forall x, In x l -> f x = false.
Proof.
  induction l as [|a t IH]; simpl.
  - split; [intros _ x [] | reflexivity].
  - rewrite orb_false_iff, IH. split.
    + intros [Ha Ht] x [<-|Hx]; [exact Ha | apply Ht, Hx].
    + intros H. split; [apply H; left; reflexivity|].
      intros x Hx. apply H. right. exact Hx.
Qed.

Lemma Qsum_map_ext {A : Type} (f g : A -> Decimal) (l : list A) :
  (forall x, In x l -> (f x == g x)%Q) ->
  (Qsum (map f l) == Qsum (map g l))%Q.
Proof.
  induction l as [|a t IH]; intros H; simpl; [reflexivity|].
  rewrite (H a (or_introl eq_refl)), IH; [reflexivity|].
  intros x Hx. apply H. right. exact Hx.
Qed.

Lemma Qsum_map_minus {A : Type} (f g : A -> Decimal) (l : list A) :
  (Qsum (map (fun x => f x - g x) l) == Qsum (map f l) - Qsum (map g l))%Q.
Proof.
  induction l as [|a t IH]; simpl; [ring|]. rewrite IH. ring.
Qed.


(** ** Monthly totals shown to parents and administrators *)

Lemma NoDup_map_filter {A K : Type} (key : A -> K) (p : A -> bool) (l : list A) :
  NoDup (map key l) -> NoDup (map key (filter p l)).
Proof.
  induction l as [|a t IH]; simpl; intros H; [constructor|].
  inversion H as [|k ks Hnotin Hnd Heq]; subst.
  destruct (p a); [|apply IH, Hnd].
  simpl. constructor; [|apply IH, Hnd].
  intros Hin. apply Hnotin. apply in_map_iff in Hin. destruct Hin as [x [Hk Hx]].
  apply filter_In in Hx. rewrite <- Hk. apply in_map. tauto.
Qed.

Lemma existsb_filter {A : Type} (f p : A -> bool) (l : list A) :
  existsb f (filter p l) = existsb (fun x => p x && f x) l.
Proof.
  induction l as [|a t IH]; simpl; [reflexivity|].
  destruct (p a); simpl; rewrite IH; reflexivity.
Qed.

(** Over contracts with distinct keys, an amount counted for the contract
    with key [k] is counted once if there is such a contract, and not at
    all otherwise. *)
Lemma Qsum_one_key (contracts : list Contract.t) (k : nat) (v : Decimal) :
  primary_key Contract.pk contracts ->
  (Qsum (map (fun c => if Nat.eqb k (Contract.pk c) then v else 0%Q) contracts)
   == if existsb (fun c => Nat.eqb (Contract.pk c) k) contracts then v else 0)%Q.
Proof.
  unfold primary_key. induction contracts as [|a t IH]; intros Hnd; [reflexivity|].
  simpl in Hnd. inversion Hnd as [|x xs Hnotin Hnd' Heq]; subst.
  cbn [map existsb]. rewrite Qsum_cons, (IH Hnd'), (Nat.eqb_sym k).
  destruct (Nat.eqb (Contract.pk a) k) eqn:E; cbn [orb]; [|ring].
  apply Nat.eqb_eq in E.
  destruct (existsb (fun c => Nat.eqb (Contract.pk c) k) t) eqn:Et; [|ring].
  exfalso. apply existsb_exists in Et. destruct Et as [c [Hc Hk]].
  apply Nat.eqb_eq in Hk. apply Hnotin. rewrite E, <- Hk. apply in_map, Hc.
Qed.

Lemma Qsum_map_plus {A : Type} (f g : A -> Decimal) (l : list A) :
  (Qsum (map (fun x => f x + g x) l) == Qsum (map f l) + Qsum (map g l))%Q.
Proof.
  induction l as [|a t IH]; simpl; [ring|]. rewrite IH. ring.
Qed.

Lemma Qsum_map_zero {A : Type} (l : list A) :
  (Qsum (map (fun _ => 0%Q) l) == 0)%Q.
Proof.
  induction l as [|a t IH]; simpl; [reflexivity|]. rewrite IH. ring.
Qed.

(** The sum over contracts of the sums over their active items is the sum
    over the active items that belong to one of the contracts. *)
Lemma Qsum_by_contract (contracts : list Contract.t) (items : list ContractItem.t) :
  primary_key Contract.pk contracts ->
  (Qsum (map (fun c =>
                Qsum (map ContractItem.final_price
                          (filter (fun i => Nat.eqb (ContractItem.contract i) (Contract.pk c)
                                            && ContractItem.is_active i)
                                  items)))
             contracts)
   == Qsum (map ContractItem.final_price
                (filter (fun i => ContractItem.is_active i
                                  && existsb (fun c => Nat.eqb (Contract.pk c)
                                                               (ContractItem.contract i))
                                             contracts)
                        items)))%Q.
Proof.
  intros Hpk. induction items as [|a t IH].
  - cbn [filter map]. change (Qsum []) with 0%Q. apply Qsum_map_zero.
  - cbn [filter].
    transitivity
      (Qsum (map (fun c => (if Nat.eqb (ContractItem.contract a) (Contract.pk c)
                            then (if ContractItem.is_active a
                                  then ContractItem.final_price a else 0)
                            else 0)
                           + Qsum (map ContractItem.final_price
                                       (filter (fun i => Nat.eqb (ContractItem.contract i)
                                                                 (Contract.pk c)
                                                         && ContractItem.is_active i)
                                               t)))
                 contracts))%Q.
    + apply Qsum_map_ext. intros c _.
      destruct (Nat.eqb (ContractItem.contract a) (Contract.pk c));
        destruct (ContractItem.is_active a); cbn [andb map];
        rewrite ?Qsum_cons; ring.
    + rewrite Qsum_map_plus, IH, (Qsum_one_key contracts _ _ Hpk).
      destruct (ContractItem.is_active a); cbn [andb];
        destruct (existsb (fun c => Nat.eqb (Contract.pk c) (ContractItem.contract a))
                          contracts);
        cbn [map]; rewrite ?Qsum_cons; ring.
Qed.

Lemma falsy_is_zero (t : Decimal) : ((if decimal_truthy t then t else 0) == t)%Q.
Proof.
  unfold decimal_truthy. destruct (Qeq_bool t 0) eqn:E; cbn [negb]; [|reflexivity].
  apply Qeq_bool_iff in E. symmetry. exact E.
Qed.

(** X21.  When contracts have distinct keys, the monthly total of the
    parent dashboard is the sum of [final_price] over the active contract
    items that belong to an active contract of the parent; items of
    contracts that are not active, or are another parent's, and inactive
    items are not counted. *)
Theorem total_monthly_counts_active_items :
  forall (db : DB) (contracts : list Contract.t) (user : nat),
    primary_key Contract.pk contracts ->
    (total_monthly db contracts user
     == Qsum (map ContractItem.final_price
                  (filter (fun i =>
                             ContractItem.is_active i
                             && existsb (fun c =>
                                           Nat.eqb (Contract.parent c) user
                                           && String.eqb (Contract.status c) "active"
                                           && Nat.eqb (Contract.pk c)
                                                      (ContractItem.contract i))
                                        contracts)
                          (contract_items db))))%Q.
Proof.
  intros db contracts user Hpk. unfold total_monthly.
  rewrite py_sum_Qsum.
  rewrite (Qsum_map_ext _ (fun c => Qsum (map ContractItem.final_price
                                              (active_items db (Contract.pk c))))).
  - unfold active_items.
    rewrite (Qsum_by_contract _ (contract_items db)
               (NoDup_map_filter Contract.pk _ contracts Hpk)).
    rewrite (filter_ext
               (fun i => ContractItem.is_active i
                         && existsb (fun c => Nat.eqb (Contract.pk c)
                                                      (ContractItem.contract i))
                                    (filter (fun c => Nat.eqb (Contract.parent c) user
                                                      && String.eqb (Contract.status c)
                                                                    "active")
                                            contracts))
               (fun i => ContractItem.is_active i
                         && existsb (fun c => Nat.eqb (Contract.parent c) user
                                              && String.eqb (Contract.status c) "active"
                                              && Nat.eqb (Contract.pk c)
                                                         (ContractItem.contract i))
                                    contracts)).
    + reflexivity.
    + intros i. rewrite existsb_filter. reflexivity.
  - intros c _. rewrite falsy_is_zero. unfold total_monthly_amount.
    apply py_sum_Qsum.
Qed.

Lemma total_monthly_counts_active_items_witness :
  let contracts := [ Contract.mk 1 7 "sepa" "active" 1 100;
                     Contract.mk 2 7 "self" "cancelled" 1 100 ] in
  let db := catalog [] [ ContractItem.mk 1 1 1 1 20 18 true;
                         ContractItem.mk 2 1 1 2 30 30 false;
                         ContractItem.mk 3 2 1 3 25 25 true ] in
  primary_key Contract.pk contracts
  /\ (total_monthly db contracts 7 == 18)%Q.
Proof.
  cbv zeta.
  assert (primary_key Contract.pk [ Contract.mk 1 7 "sepa" "active" 1 100;
                                    Contract.mk 2 7 "self" "cancelled" 1 100 ]) as Hpk.
  { unfold primary_key. simpl.
    constructor; [intros [H|[]]; discriminate H|].
    constructor; [intros []|]. constructor. }
  split; [exact Hpk|].
  rewrite (total_monthly_counts_active_items _ _ 7%nat Hpk). reflexivity.
Defined.

(** X22.  The column [get_monthly_total] of the contract admin shows
    "0.00€" for every contract, whatever its items and its payment type:
    it calls the value of the property [total_monthly_amount], the call
    raises [TypeError], and the handler returns the fallback text. *)
Theorem get_monthly_total_is_fallback :
  forall (format_amount : Decimal -> string) (format_span : string -> Decimal -> string)
         (db : DB) (obj : Contract.t),
    get_monthly_total format_amount format_span db obj = "0.00€"%string.
Proof.
  intros format_amount format_span db obj. reflexivity.
Qed.


(** ** Activation and deactivation *)

Lemma length_filter_split {A : Type} (p q : A -> bool) (l : list A) :
  List.length (filter p l)
  = (List.length (filter (fun r => p r && q r) l)
     + List.length (filter (fun r => p r && negb (q r)) l))%nat.
Proof.
  induction l as [|a t IH]; simpl; [reflexivity|].
  destruct (p a), (q a); simpl; lia.
Qed.

Lemma deactivated_active_rows (queryset : ContractItem.t -> bool) (contract : nat)
    (rows : list ContractItem.t) :
  List.length
    (filter (fun i => Nat.eqb (ContractItem.contract i) contract
                      && ContractItem.is_active i)
            (map (fun r => if queryset r then ContractItem_set_is_active false r else r)
                 rows))
  = List.length
      (filter (fun r => Nat.eqb (ContractItem.contract r) contract
                        && ContractItem.is_active r && negb (queryset r))
              rows).
Proof.
  induction rows as [|a t IH]; [reflexivity|].
  cbn [map filter]. destruct (queryset a) eqn:E.
  - cbn [ContractItem_set_is_active ContractItem.contract ContractItem.is_active negb].
    rewrite andb_false_r, andb_false_r. exact IH.
  - cbn [negb]. rewrite andb_true_r.
    destruct (Nat.eqb (ContractItem.contract a) contract
              && ContractItem.is_active a); cbn [List.length]; rewrite IH;
      reflexivity.
Qed.

(** X23.  For a query set that does not select on [is_active]:
    activating after deactivating is activating, and deactivating after
    activating is deactivating, with the same number of rows reported, so
    the pair is no round trip for items that were inactive before.
    [deactivate_items] lowers the number of active items of each contract
    by the number of its active items in the query set, and neither action
    changes a stored [final_price]. *)
Theorem activation_overrides :
  forall (queryset : ContractItem.t -> bool) (db : DB),
    (forall v r, queryset (ContractItem_set_is_active v r) = queryset r) ->
    activate_items queryset (snd (deactivate_items queryset db))
    = activate_items queryset db
    /\ deactivate_items queryset (snd (activate_items queryset db))
       = deactivate_items queryset db
    /\ (forall contract,
          count (active_items (snd (deactivate_items queryset db)) contract)
          = count (active_items db contract)
            - count (filter queryset (active_items db contract)))
    /\ map ContractItem.final_price (contract_items (snd (deactivate_items queryset db)))
       = map ContractItem.final_price (contract_items db)
    /\ map ContractItem.final_price (contract_items (snd (activate_items queryset db)))
       = map ContractItem.final_price (contract_items db).
Proof.
  intros queryset db Hq.
  assert (forall v w,
            (count (filter queryset
                      (map (fun r => if queryset r then ContractItem_set_is_active v r
                                     else r) (contract_items db))),
             set_contract_items
               (map (fun r => if queryset r then ContractItem_set_is_active w r else r)
                  (map (fun r => if queryset r then ContractItem_set_is_active v r
                                 else r) (contract_items db)))
               db)
            = (count (filter queryset (contract_items db)),
               set_contract_items
                 (map (fun r => if queryset r then ContractItem_set_is_active w r else r)
                      (contract_items db))
                 db)) as Htwice.
  { intros v w. f_equal.
    - unfold count. f_equal. apply length_filter_map_same. intros r _.
      destruct (queryset r) eqn:E; [rewrite Hq|]; exact E.
    - f_equal. rewrite map_map. apply map_ext. intros r.
      destruct (queryset r) eqn:E; [|rewrite E; reflexivity].
      rewrite Hq, E. reflexivity. }
  split; [exact (Htwice false true)|]. split; [exact (Htwice true false)|].
  split; [|split].
  - intros contract. unfold deactivate_items, queryset_update, active_items, count.
    cbn [snd fst contract_items set_contract_items].
    rewrite deactivated_active_rows, filter_twice.
    rewrite (length_filter_split
               (fun i => Nat.eqb (ContractItem.contract i) contract
                         && ContractItem.is_active i)
               queryset (contract_items db)).
    lia.
  - unfold deactivate_items, queryset_update. cbn [snd contract_items set_contract_items].
    rewrite map_map. apply map_ext. intros r. destruct (queryset r); reflexivity.
  - unfold activate_items, queryset_update. cbn [snd contract_items set_contract_items].
    rewrite map_map. apply map_ext. intros r. destruct (queryset r); reflexivity.
Qed.

Lemma activation_overrides_witness :
  (forall v r, by_keys [1%nat] (ContractItem_set_is_active v r) = by_keys [1%nat] r)
  /\ activate_items (by_keys [1%nat]) (snd (deactivate_items (by_keys [1%nat]) two_items))
     = activate_items (by_keys [1%nat]) two_items.
Proof.
  assert (forall v r, by_keys [1%nat] (ContractItem_set_is_active v r)
                      = by_keys [1%nat] r) as Hq by reflexivity.
  split; [exact Hq|].
  exact (proj1 (activation_overrides (by_keys [1%nat]) two_items Hq)).
Defined.


(** ** Decimal columns *)

Lemma round_half_away_comp (v w : Decimal) :
  (v == w)%Q -> round_half_away v = round_half_away w.
Proof.
  intros H. unfold round_half_away.
  assert (Qle_bool 0 v = Qle_bool 0 w) as -> by (rewrite H; reflexivity).
  assert (Qfloor (v + (1 # 2)) = Qfloor (w + (1 # 2))) as -> by (rewrite H; reflexivity).
  assert (Qfloor (- v + (1 # 2)) = Qfloor (- w + (1 # 2))) as ->
    by (rewrite H; reflexivity).
  reflexivity.
Qed.

Lemma Qle_bool_false (a b : Decimal) : Qle_bool a b = false -> (b < a)%Q.
Proof.
  intros H. apply Qnot_le_lt. intro Hle. apply Qle_bool_iff in Hle. congruence.
Qed.

Lemma Qfloor_nonneg (x : Decimal) : (0 <= x)%Q -> 0 <= Qfloor x.
Proof.
  intros H. change 0 with (Qfloor 0). apply Qfloor_resp_le, H.
Qed.

Lemma round_half_away_mono (v w : Decimal) :
  (v <= w)%Q -> round_half_away v <= round_half_away w.
Proof.
  intros H. unfold round_half_away.
  destruct (Qle_bool 0 v) eqn:Ev; destruct (Qle_bool 0 w) eqn:Ew.
  - apply Qfloor_resp_le. lra.
  - apply Qle_bool_iff in Ev. apply Qle_bool_false in Ew. lra.
  - apply Qle_bool_false in Ev. apply Qle_bool_iff in Ew.
    assert (0 <= Qfloor (- v + (1 # 2))) by (apply Qfloor_nonneg; lra).
    assert (0 <= Qfloor (w + (1 # 2))) by (apply Qfloor_nonneg; lra).
    lia.
  - assert (Qfloor (- w + (1 # 2)) <= Qfloor (- v + (1 # 2)))
      by (apply Qfloor_resp_le; lra).
    lia.
Qed.

Lemma round_half_away_near (v : Decimal) :
  (inject_Z (round_half_away v) - (1 # 2) <= v
   /\ v <= inject_Z (round_half_away v) + (1 # 2))%Q.
Proof.
  unfold round_half_away. destruct (Qle_bool 0 v).
  - pose proof (Qfloor_le (v + (1 # 2))) as Hl.
    pose proof (Qlt_floor (v + (1 # 2))) as Hu.
    rewrite inject_Z_plus in Hu. change (inject_Z 1) with 1%Q in Hu. lra.
  - pose proof (Qfloor_le (- v + (1 # 2))) as Hl.
    pose proof (Qlt_floor (- v + (1 # 2))) as Hu.
    rewrite inject_Z_plus in Hu. change (inject_Z 1) with 1%Q in Hu.
    rewrite inject_Z_opp. lra.
Qed.

Lemma round_half_away_nonneg (v : Decimal) : (0 <= v)%Q -> 0 <= round_half_away v.
Proof.
  intros H. change 0 with (round_half_away 0). apply round_half_away_mono, H.
Qed.

(** What a column of two decimal places stores. *)
Lemma numeric_2_stored (max_digits : Z) (v x : Decimal) :
  numeric max_digits 2 v = Stored x ->
  x = (round_half_away (v * inject_Z 100) # 100)
  /\ Z.abs (round_half_away (v * inject_Z 100)) < 10 ^ max_digits.
Proof.
  unfold numeric. change (10 ^ 2) with 100. change (Z.to_pos 100) with 100%positive.
  destruct (Z.abs (round_half_away (v * inject_Z 100)) <? 10 ^ max_digits) eqn:E;
    [|discriminate].
  intros H. injection H as <-. split; [reflexivity | apply Z.ltb_lt, E].
Qed.

Lemma numeric_2_DataError (max_digits : Z) (v : Decimal) :
  numeric max_digits 2 v = DataError
  <-> 10 ^ max_digits <= Z.abs (round_half_away (v * inject_Z 100)).
Proof.
  unfold numeric. change (10 ^ 2) with 100.
  destruct (Z.abs (round_half_away (v * inject_Z 100)) <? 10 ^ max_digits) eqn:E.
  - apply Z.ltb_lt in E. split; [discriminate | lia].
  - apply Z.ltb_ge in E. split; [intros _; exact E | reflexivity].
Qed.

Lemma hundredths (r : Z) : (r # 100 == inject_Z r * (1 # 100))%Q.
Proof. unfold Qeq, inject_Z. simpl. lia. Qed.

(** The stored value is within half a hundredth of the value written. *)
Lemma numeric_2_near (max_digits : Z) (v x : Decimal) :
  numeric max_digits 2 v = Stored x ->
  (x - (1 # 200) <= v /\ v <= x + (1 # 200))%Q.
Proof.
  intros H. apply numeric_2_stored in H. destruct H as [-> _].
  pose proof (round_half_away_near (v * inject_Z 100)) as [Hl Hu].
  rewrite hundredths. change (inject_Z 100) with 100%Q in *. lra.
Qed.

(** Rounding keeps the order of the values written. *)
Lemma numeric_2_mono (p q : Z) (v w x y : Decimal) :
  numeric p 2 v = Stored x -> numeric q 2 w = Stored y ->
  (v <= w)%Q -> (x <= y)%Q.
Proof.
  intros Hx Hy Hvw.
  apply numeric_2_stored in Hx. apply numeric_2_stored in Hy.
  destruct Hx as [-> _], Hy as [-> _].
  assert (round_half_away (v * inject_Z 100) <= round_half_away (w * inject_Z 100)) as H.
  { apply round_half_away_mono. change (inject_Z 100) with 100%Q. lra. }
  unfold Qle. simpl. lia.
Qed.

Lemma numeric_2_nonneg (p : Z) (v x : Decimal) :
  numeric p 2 v = Stored x -> (0 <= v)%Q -> (0 <= x)%Q.
Proof.
  intros Hx Hv. apply numeric_2_stored in Hx. destruct Hx as [-> _].
  assert (0 <= round_half_away (v * inject_Z 100)) as H.
  { apply round_half_away_nonneg. change (inject_Z 100) with 100%Q. lra. }
  unfold Qle. simpl. lia.
Qed.

Lemma round_half_away_Z (c : Z) : round_half_away (inject_Z c) = c.
Proof.
  pose proof (round_half_away_near (inject_Z c)) as [Hl Hu].
  set (r := round_half_away (inject_Z c)) in *.
  assert (inject_Z r < inject_Z c + 1)%Q as H1 by lra.
  assert (inject_Z c < inject_Z r + 1)%Q as H2 by lra.
  change 1%Q with (inject_Z 1) in H1, H2.
  rewrite <- inject_Z_plus in H1, H2.
  rewrite <- Zlt_Qlt in H1, H2. lia.
Qed.

(** A value of two decimal places that fits is stored as it is. *)
Lemma numeric_2_exact (max_digits : Z) (v : Decimal) (c : Z) :
  (v == c # 100)%Q -> Z.abs c < 10 ^ max_digits ->
  numeric max_digits 2 v = Stored (c # 100).
Proof.
  intros Hv Hc. unfold numeric. change (10 ^ 2) with 100.
  change (Z.to_pos 100) with 100%positive.
  assert (round_half_away (v * inject_Z 100) = c) as ->.
  { rewrite (round_half_away_comp _ (inject_Z c)); [apply round_half_away_Z|].
    rewrite Hv, hundredths. change (inject_Z 100) with 100%Q. field. }
  apply Z.ltb_lt in Hc. rewrite Hc. reflexivity.
Qed.


(** ** The final price as it is written *)

Lemma ContractItem_row_stored (self row : ContractItem.t) :
  ContractItem_row self = Stored row ->
  numeric 8 2 (ContractItem.base_price self) = Stored (ContractItem.base_price row)
  /\ numeric 8 2 (ContractItem.final_price self) = Stored (ContractItem.final_price row)
  /\ ContractItem.pk row = ContractItem.pk self
  /\ ContractItem.contract row = ContractItem.contract self
  /\ ContractItem.child row = ContractItem.child self
  /\ ContractItem.subject row = ContractItem.subject self
  /\ ContractItem.is_active row = ContractItem.is_active self.
Proof.
  unfold ContractItem_row.
  destruct (numeric 8 2 (ContractItem.base_price self)) as [b|]; [|discriminate].
  destruct (numeric 8 2 (ContractItem.final_price self)) as [f|]; [|discriminate].
  intros H. injection H as <-. repeat split; reflexivity.
Qed.

Lemma ContractItem_row_DataError (self : ContractItem.t) :
  ContractItem_row self = DataError
  <-> numeric 8 2 (ContractItem.base_price self) = DataError
      \/ numeric 8 2 (ContractItem.final_price self) = DataError.
Proof.
  unfold ContractItem_row.
  destruct (numeric 8 2 (ContractItem.base_price self)) as [b|];
    destruct (numeric 8 2 (ContractItem.final_price self)) as [f|];
    split; intros H; try reflexivity; try discriminate H; auto;
    destruct H as [H|H]; discriminate H.
Qed.

Lemma update_final_price_written_stored (today : date) (self self' : ContractItem.t)
    (db db' : DB) :
  update_final_price_written today self db = Stored (self', db') ->
  self' = fst (update_final_price today self db)
  /\ exists row, ContractItem_row self' = Stored row
                 /\ db' = ContractItem_save row db.
Proof.
  unfold update_final_price_written, ContractItem_save_written.
  destruct (ContractItem_row (fst (update_final_price today self db))) as [row|] eqn:E;
    [|discriminate].
  intros H. injection H as <- <-. split; [reflexivity|].
  exists row. split; [exact E | reflexivity].
Qed.

Lemma final_price_at_most_base (today : date) (self : ContractItem.t) (db : DB) :
  (forall d, In d (discounts db) -> Discount.is_active d = true ->
             (0 <= Discount.value d)%Q) ->
  (0 <= ContractItem.base_price self)%Q ->
  (ContractItem.final_price (fst (update_final_price today self db))
   <= ContractItem.base_price self)%Q.
Proof.
  intros Hv Hb. unfold update_final_price. simpl.
  apply py_max_upper; [|exact Hb].
  pose proof (calculate_discounts_nonneg today db self Hv Hb) as Hd. lra.
Qed.

(** C2, amended.  After [update_final_price] the instance's [final_price]
    is [max(base_price - calculate_discounts(), 0)] and its [base_price] is
    as before.  The final price is never negative; when every active rule
    has a non-negative value and the base price is not negative, it is at
    most the base price.  What is persisted is the rounding of these
    values: when the write returns, the one row of the table with the
    item's key holds what the column makes of the instance's final price,
    within half a hundredth of it, not negative, and under the same
    hypotheses at most the row's base price; the write raises [DataError]
    exactly when the base price or the final price does not fit its
    column.  A base price of 10 with an absolute discount of 15 gives 0,
    and a base price of 20 with a discount of 10 percent gives 18, on the
    instance and in the row. *)
Theorem update_final_price_clamped :
  forall (today : date) (self : ContractItem.t) (db : DB),
    (ContractItem.final_price (fst (update_final_price today self db))
     == Qmax (ContractItem.base_price self - calculate_discounts today db self) 0)%Q
    /\ ContractItem.base_price (fst (update_final_price today self db))
       = ContractItem.base_price self
    /\ (0 <= ContractItem.final_price (fst (update_final_price today self db)))%Q
    /\ ((forall d, In d (discounts db) -> Discount.is_active d = true ->
                   (0 <= Discount.value d)%Q) ->
        (0 <= ContractItem.base_price self)%Q ->
        (ContractItem.final_price (fst (update_final_price today self db))
         <= ContractItem.base_price (fst (update_final_price today self db)))%Q)
    /\ (forall self' db',
          update_final_price_written today self db = Stored (self', db') ->
          self' = fst (update_final_price today self db)
          /\ exists row,
               In row (contract_items db')
               /\ (forall r, In r (contract_items db') ->
                             ContractItem.pk r = ContractItem.pk self -> r = row)
               /\ ContractItem.pk row = ContractItem.pk self
               /\ numeric 8 2 (ContractItem.final_price self')
                  = Stored (ContractItem.final_price row)
               /\ numeric 8 2 (ContractItem.base_price self)
                  = Stored (ContractItem.base_price row)
               /\ (ContractItem.final_price row - (1 # 200)
                   <= ContractItem.final_price self')%Q
               /\ (ContractItem.final_price self'
                   <= ContractItem.final_price row + (1 # 200))%Q
               /\ (0 <= ContractItem.final_price row)%Q
               /\ ((forall d, In d (discounts db) -> Discount.is_active d = true ->
                              (0 <= Discount.value d)%Q) ->
                   (0 <= ContractItem.base_price self)%Q ->
                   (ContractItem.final_price row <= ContractItem.base_price row)%Q))
    /\ (update_final_price_written today self db = DataError
        <-> numeric 8 2 (ContractItem.base_price self) = DataError
            \/ numeric 8 2 (ContractItem.final_price
                              (fst (update_final_price today self db))) = DataError)
    /\ (ContractItem.final_price
          (fst (update_final_price 5%Z (item 1 10)
                  (catalog [rule 1 absolute 15 None None] [item 1 10]))) == 0)%Q
    /\ (ContractItem.final_price
          (fst (update_final_price 5%Z (item 1 20)
                  (catalog [rule 1 percentage 10 None None] [item 1 20]))) == 18)%Q
    /\ (exists self' db',
          update_final_price_written 5%Z (item 1 10)
            (catalog [rule 1 absolute 15 None None] [item 1 10]) = Stored (self', db')
          /\ map ContractItem.final_price (contract_items db') = [0 # 100])
    /\ (exists self' db',
          update_final_price_written 5%Z (item 1 20)
            (catalog [rule 1 percentage 10 None None] [item 1 20]) = Stored (self', db')
          /\ map ContractItem.final_price (contract_items db') = [1800 # 100]).
Proof.
  intros today self db.
  split; [unfold update_final_price; simpl; apply py_max_spec|].
  split; [reflexivity|].
  split; [unfold update_final_price; simpl; apply py_max_lower|].
  split; [intros Hv Hb; apply (final_price_at_most_base today self db Hv Hb)|].
  split; [|split].
  - intros self' db' H.
    destruct (update_final_price_written_stored today self self' db db' H)
      as [Hs [row [Hrow ->]]].
    split; [exact Hs|].
    destruct (ContractItem_row_stored self' row Hrow)
      as [Hb [Hf [Hpk _]]].
    assert (ContractItem.pk self' = ContractItem.pk self) as Hpk'
      by (rewrite Hs; reflexivity).
    assert (ContractItem.base_price self' = ContractItem.base_price self) as Hbase
      by (rewrite Hs; reflexivity).
    exists row.
    split; [apply upsert_In|].
    split; [intros r Hr Hk; apply (upsert_overwrites ContractItem.pk row _ r Hr);
            congruence|].
    split; [congruence|]. split; [exact Hf|].
    split; [rewrite <- Hbase; exact Hb|].
    pose proof (numeric_2_near 8 _ _ Hf) as [Hl Hu].
    split; [exact Hl|]. split; [exact Hu|].
    split.
    + apply (numeric_2_nonneg 8 _ _ Hf). rewrite Hs.
      unfold update_final_price. simpl. apply py_max_lower.
    + intros Hv Hb0. apply (numeric_2_mono 8 8 _ _ _ _ Hf Hb).
      rewrite Hbase, Hs. apply (final_price_at_most_base today self db Hv Hb0).
  - unfold update_final_price_written, ContractItem_save_written.
    change (ContractItem.base_price self)
      with (ContractItem.base_price (fst (update_final_price today self db))).
    rewrite <- ContractItem_row_DataError.
    destruct (ContractItem_row (fst (update_final_price today self db)));
      split; intros H; try discriminate H; reflexivity.
  - split; [reflexivity|]. split; [reflexivity|].
    split; eexists; eexists; split; reflexivity.
Qed.


(** ** The total of an invoice line as it is written *)





(** ** Invoice totals as the database stores them *)

Lemma calculate_totals_written_cases (self : Invoice.t) (db : DB) :
  (totals_fit db self
   /\ exists s d a,
        numeric 10 2 (py_sum (map InvoiceItem.total_amount (items_all db self)))
        = Stored s
        /\ numeric 10 2 (py_sum (map InvoiceItem.discount_amount (items_all db self)))
           = Stored d
        /\ numeric 10 2 (py_sum (map InvoiceItem.total_amount (items_all db self))
                         - py_sum (map InvoiceItem.discount_amount (items_all db self)))
           = Stored a
        /\ calculate_totals_written self db
           = Stored
               (if existsb (fun r => Nat.eqb (Invoice.pk r) (Invoice.pk self))
                           (invoices db)
                then Ok (Invoice.set_totals
                           (py_sum (map InvoiceItem.total_amount (items_all db self)))
                           (py_sum (map InvoiceItem.discount_amount (items_all db self)))
                           (py_sum (map InvoiceItem.total_amount (items_all db self))
                            - py_sum (map InvoiceItem.discount_amount
                                          (items_all db self)))%Q
                           self,
                         set_invoices
                           (map (fun r => if Nat.eqb (Invoice.pk r) (Invoice.pk self)
                                          then Invoice.set_totals s d a r
                                          else r)
                                (invoices db))
                           db)
                else Raise DatabaseError))
  \/ (~ totals_fit db self /\ calculate_totals_written self db = DataError).
Proof.
  unfold totals_fit, calculate_totals_written.
  destruct (numeric 10 2 (py_sum (map InvoiceItem.total_amount (items_all db self))))
    as [s|];
    [|right; split; [intros [H _]; apply H; reflexivity | reflexivity]].
  destruct (numeric 10 2 (py_sum (map InvoiceItem.discount_amount (items_all db self))))
    as [d|];
    [|right; split; [intros [_ [H _]]; apply H; reflexivity | reflexivity]].
  destruct (numeric 10 2
              (py_sum (map InvoiceItem.total_amount (items_all db self))
               - py_sum (map InvoiceItem.discount_amount (items_all db self))))
    as [a|];
    [|right; split; [intros [_ [_ H]]; apply H; reflexivity | reflexivity]].
  left. split; [repeat split; discriminate|].
  exists s, d, a. repeat split; reflexivity.
Qed.

Lemma existsb_key_iff (self : Invoice.t) (l : list Invoice.t) :
  existsb (fun r => Nat.eqb (Invoice.pk r) (Invoice.pk self)) l = true
  <-> exists r, In r l /\ Invoice.pk r = Invoice.pk self.
Proof.
  rewrite existsb_exists. split; intros [r [Hr Hk]]; exists r; split; try exact Hr.
  - apply Nat.eqb_eq, Hk.
  - apply Nat.eqb_eq, Hk.
Qed.

(** X19.  [calculate_totals], its three totals written to
    [DecimalField(10, 2)] columns, returns exactly when an invoice row has
    the instance's key and the three totals fit their columns.
    [DatabaseError] is the only exception it is left by when the totals
    fit, and then no row has the key; it raises [DataError] only when a
    total does not fit, and always when a row has the key and a total does
    not fit: so for the draft invoice with 101 lines of 999999.99.  When it
    returns, each row with the key holds what the columns make of the
    instance's three totals; calling it again on the instance and the
    database it left changes nothing; it leaves the invoice lines, the
    contract items and the invoices with another key as they were, and
    status and due date of the instance. *)
Theorem calculate_totals_again :
  forall (self : Invoice.t) (db : DB),
    ((exists self' db', calculate_totals_written self db = Stored (Ok (self', db')))
     <-> (exists r, In r (invoices db) /\ Invoice.pk r = Invoice.pk self)
         /\ totals_fit db self)
    /\ (forall e, calculate_totals_written self db = Stored (Raise e) ->
                  e = DatabaseError
                  /\ forall r, In r (invoices db) -> Invoice.pk r <> Invoice.pk self)
    /\ (calculate_totals_written self db = DataError -> ~ totals_fit db self)
    /\ ((exists r, In r (invoices db) /\ Invoice.pk r = Invoice.pk self) ->
        ~ totals_fit db self ->
        calculate_totals_written self db = DataError)
    /\ (forall self' db',
          calculate_totals_written self db = Stored (Ok (self', db')) ->
          calculate_totals_written self' db' = Stored (Ok (self', db'))
          /\ invoice_items db' = invoice_items db
          /\ contract_items db' = contract_items db
          /\ (forall r, In r (invoices db) -> Invoice.pk r <> Invoice.pk self ->
                        In r (invoices db'))
          /\ Invoice.status self' = Invoice.status self
          /\ Invoice.due_date self' = Invoice.due_date self
          /\ (forall r', In r' (invoices db') -> Invoice.pk r' = Invoice.pk self ->
                numeric 10 2 (Invoice.subtotal self') = Stored (Invoice.subtotal r')
                /\ numeric 10 2 (Invoice.total_discount self')
                   = Stored (Invoice.total_discount r')
                /\ numeric 10 2 (Invoice.total_amount self')
                   = Stored (Invoice.total_amount r')))
    /\ calculate_totals_written draft_invoice (billing many_lines) = DataError.
Proof.
  intros self db.
  destruct (calculate_totals_written_cases self db)
    as [[Hfit [s [d [a [Hs [Hd [Ha Hc]]]]]]] | [Hfit Hc]].
  - destruct (existsb (fun r => Nat.eqb (Invoice.pk r) (Invoice.pk self)) (invoices db))
      eqn:E.
    + assert (exists r, In r (invoices db) /\ Invoice.pk r = Invoice.pk self) as Hrow
        by (apply existsb_key_iff, E).
      split; [|split; [|split; [|split; [|split]]]].
      * split; [intros _; split; assumption|]. intros _. eexists. eexists. exact Hc.
      * intros e H. rewrite Hc in H. discriminate H.
      * intros H. rewrite Hc in H. discriminate H.
      * intros _ H. contradiction.
      * intros self' db' H. rewrite Hc in H. injection H as <- <-.
        cbn [invoice_items contract_items invoices set_invoices
             Invoice.status Invoice.due_date Invoice.set_totals
             Invoice.subtotal Invoice.total_discount Invoice.total_amount].
        split; [|split; [reflexivity|]; split; [reflexivity|]; split;
                 [|split; [reflexivity|]; split; [reflexivity|]]].
        -- unfold calculate_totals_written, items_all.
           cbn [invoice_items set_invoices invoices Invoice.pk Invoice.set_totals].
           unfold items_all in Hs, Hd, Ha. rewrite Hs, Hd, Ha.
           assert (existsb (fun r => Nat.eqb (Invoice.pk r) (Invoice.pk self))
                           (map (fun r => if Nat.eqb (Invoice.pk r) (Invoice.pk self)
                                          then Invoice.set_totals s d a r
                                          else r)
                                (invoices db)) = true) as E'.
           { destruct Hrow as [r [Hr Hk]]. apply existsb_exists. eexists. split.
             - apply in_map_iff. exists r. split; [reflexivity | exact Hr].
             - apply Nat.eqb_eq in Hk. rewrite Hk. exact Hk. }
           rewrite E'. f_equal. f_equal. f_equal.
           unfold set_invoices. cbn [price_lists discounts contract_items
                                     contract_item_discounts invoice_items].
           f_equal. rewrite map_map. apply map_ext. intros r.
           destruct (Nat.eqb (Invoice.pk r) (Invoice.pk self)) eqn:Ek.
           ++ cbn [Invoice.pk Invoice.set_totals]. rewrite Ek. reflexivity.
           ++ rewrite Ek. reflexivity.
        -- intros r Hr Hk. apply in_map_iff. exists r.
           apply Nat.eqb_neq in Hk. rewrite Hk. split; [reflexivity | exact Hr].
        -- intros r' Hr' Hk'. apply in_map_iff in Hr'. destruct Hr' as [r [<- Hr]].
           destruct (Nat.eqb (Invoice.pk r) (Invoice.pk self)) eqn:Ek.
           ++ cbn [Invoice.subtotal Invoice.total_discount Invoice.total_amount
                   Invoice.set_totals].
              split; [exact Hs|]. split; [exact Hd | exact Ha].
           ++ apply Nat.eqb_neq in Ek. contradiction.
      * reflexivity.
    + assert (forall r, In r (invoices db) -> Invoice.pk r <> Invoice.pk self) as Hno.
      { intros r Hr Hk. rewrite existsb_false_iff in E. specialize (E r Hr).
        apply Nat.eqb_neq in E. contradiction. }
      split; [|split; [|split; [|split; [|split]]]].
      * split.
        -- intros [self' [db' H]]. rewrite Hc in H. discriminate H.
        -- intros [[r [Hr Hk]] _]. exfalso. exact (Hno r Hr Hk).
      * intros e H. rewrite Hc in H. injection H as <-. split; [reflexivity | exact Hno].
      * intros H. rewrite Hc in H. discriminate H.
      * intros _ H. contradiction.
      * intros self' db' H. rewrite Hc in H. discriminate H.
      * reflexivity.
  - split; [|split; [|split; [|split; [|split]]]].
    + split.
      * intros [self' [db' H]]. rewrite Hc in H. discriminate H.
      * intros [_ H]. contradiction.
    + intros e H. rewrite Hc in H. discriminate H.
    + intros _. exact Hfit.
    + intros _ _. exact Hc.
    + intros self' db' H. rewrite Hc in H. discriminate H.
    + reflexivity.
Qed.

Lemma Qsum_map_near {A : Type} (f g : A -> Decimal) (l : list A) :
  (forall x, In x l -> (f x - (1 # 200) <= g x /\ g x <= f x + (1 # 200))%Q) ->
  (Qsum (map f l) - inject_Z (count l) * (1 # 200) <= Qsum (map g l)
   /\ Qsum (map g l) <= Qsum (map f l) + inject_Z (count l) * (1 # 200))%Q.
Proof.
  induction l as [|a t IH]; intros H.
  - unfold count. simpl. change (inject_Z 0) with 0%Q. lra.
  - destruct (H a (or_introl eq_refl)) as [Hl Hu].
    destruct IH as [IHl IHu]; [intros x Hx; apply H; right; exact Hx|].
    replace (count (a :: t)) with (count t + 1)
      by (unfold count; cbn [List.length]; lia).
    rewrite inject_Z_plus. change (inject_Z 1) with 1%Q.
    cbn [map]. rewrite !Qsum_cons. lra.
Qed.

(** X20.  For a stored invoice whose lines hold in [total_amount] what the
    column makes of [quantity * unit_price - discount_amount], as
    [InvoiceItem.save] writes it, [calculate_totals] returns when the three
    totals fit their columns and raises [DataError] when they do not.  When
    it returns, [subtotal] is within half a hundredth a line of the sum of
    the lines' amounts before discount minus the sum of their discounts,
    and [total_amount] is [subtotal] minus the sum of the discounts once
    more; where every line's total is that difference exactly, [subtotal]
    is the sum of the amounts before discount minus the sum of the
    discounts and [total_amount] the sum of the amounts before discount
    minus twice the sum of the discounts. *)
Theorem calculate_totals_of_saved_lines :
  forall (self : Invoice.t) (db : DB),
    In self (invoices db) ->
    (forall line, In line (items_all db self) ->
                  numeric 8 2 (InvoiceItem.quantity line * InvoiceItem.unit_price line
                               - InvoiceItem.discount_amount line)
                  = Stored (InvoiceItem.total_amount line)) ->
    (totals_fit db self ->
     exists self' db',
       calculate_totals_written self db = Stored (Ok (self', db'))
       /\ (Qsum (map amount_before_discount (items_all db self))
           - Qsum (map InvoiceItem.discount_amount (items_all db self))
           - inject_Z (count (items_all db self)) * (1 # 200)
           <= Invoice.subtotal self')%Q
       /\ (Invoice.subtotal self'
           <= Qsum (map amount_before_discount (items_all db self))
              - Qsum (map InvoiceItem.discount_amount (items_all db self))
              + inject_Z (count (items_all db self)) * (1 # 200))%Q
       /\ (Invoice.total_amount self'
           == Invoice.subtotal self'
              - Qsum (map InvoiceItem.discount_amount (items_all db self)))%Q
       /\ ((forall line, In line (items_all db self) ->
                         (InvoiceItem.total_amount line
                          == InvoiceItem.quantity line * InvoiceItem.unit_price line
                             - InvoiceItem.discount_amount line)%Q) ->
           (Invoice.subtotal self'
            == Qsum (map amount_before_discount (items_all db self))
               - Qsum (map InvoiceItem.discount_amount (items_all db self)))%Q
           /\ (Invoice.total_amount self'
               == Qsum (map amount_before_discount (items_all db self))
                  - (2 # 1)
                    * Qsum (map InvoiceItem.discount_amount (items_all db self)))%Q))
    /\ (~ totals_fit db self -> calculate_totals_written self db = DataError).
Proof.
  intros self db Hin Hlines.
  assert (existsb (fun r => Nat.eqb (Invoice.pk r) (Invoice.pk self)) (invoices db)
          = true) as E.
  { apply existsb_exists. exists self. split; [exact Hin | apply Nat.eqb_refl]. }
  destruct (calculate_totals_written_cases self db)
    as [[Hfit [s [d [a [Hs [Hd [Ha Hc]]]]]]] | [Hfit Hc]].
  - split; [|intros H; contradiction].
    intros _. rewrite E in Hc. eexists. eexists. split; [exact Hc|].
    cbn [Invoice.subtotal Invoice.total_amount Invoice.set_totals].
    rewrite !py_sum_Qsum.
    pose proof (Qsum_map_near
                  InvoiceItem.total_amount
                  (fun line => amount_before_discount line
                               - InvoiceItem.discount_amount line)%Q
                  (items_all db self)
                  (fun line Hl => numeric_2_near 8 _ _ (Hlines line Hl))) as [Hl Hu].
    pose proof (Qsum_map_minus amount_before_discount InvoiceItem.discount_amount
                  (items_all db self)) as Hm.
    split; [lra|]. split; [lra|]. split; [reflexivity|].
    intros Hexact.
    assert (Qsum (map InvoiceItem.total_amount (items_all db self))
              == Qsum (map amount_before_discount (items_all db self))
               - Qsum (map InvoiceItem.discount_amount (items_all db self)))%Q as Hsum.
    { rewrite <- Qsum_map_minus. apply Qsum_map_ext. exact Hexact. }
    split; [exact Hsum|]. rewrite Hsum. ring.
  - split; [intros H; contradiction | intros _; exact Hc].
Qed.

Lemma calculate_totals_of_saved_lines_witness :
  (totals_fit saved_lines draft_invoice ->
   exists self' db',
     calculate_totals_written draft_invoice saved_lines = Stored (Ok (self', db'))
     /\ (Qsum (map amount_before_discount (items_all saved_lines draft_invoice))
         - Qsum (map InvoiceItem.discount_amount (items_all saved_lines draft_invoice))
         - inject_Z (count (items_all saved_lines draft_invoice)) * (1 # 200)
         <= Invoice.subtotal self')%Q
     /\ (Invoice.subtotal self'
         <= Qsum (map amount_before_discount (items_all saved_lines draft_invoice))
            - Qsum (map InvoiceItem.discount_amount (items_all saved_lines draft_invoice))
            + inject_Z (count (items_all saved_lines draft_invoice)) * (1 # 200))%Q
     /\ (Invoice.total_amount self'
         == Invoice.subtotal self'
            - Qsum (map InvoiceItem.discount_amount
                        (items_all saved_lines draft_invoice)))%Q
     /\ ((forall line, In line (items_all saved_lines draft_invoice) ->
                       (InvoiceItem.total_amount line
                        == InvoiceItem.quantity line * InvoiceItem.unit_price line
                           - InvoiceItem.discount_amount line)%Q) ->
         (Invoice.subtotal self'
          == Qsum (map amount_before_discount (items_all saved_lines draft_invoice))
             - Qsum (map InvoiceItem.discount_amount
                         (items_all saved_lines draft_invoice)))%Q
         /\ (Invoice.total_amount self'
             == Qsum (map amount_before_discount (items_all saved_lines draft_invoice))
                - (2 # 1)
                  * Qsum (map InvoiceItem.discount_amount
                              (items_all saved_lines draft_invoice)))%Q))
  /\ (~ totals_fit saved_lines draft_invoice ->
      calculate_totals_written draft_invoice saved_lines = DataError).
Proof.
  apply (calculate_totals_of_saved_lines draft_invoice saved_lines).
  - left. reflexivity.
  - intros line Hline. vm_compute in Hline.
    destruct Hline as [<-|[<-|[]]]; reflexivity.
Defined.


(** ** Recalculating twice *)

Lemma save_row_keeps_active_count (db : DB) (self row : ContractItem.t) (c : nat) :
  in_step db self ->
  ContractItem.pk row = ContractItem.pk self ->
  ContractItem.contract row = ContractItem.contract self ->
  ContractItem.is_active row = ContractItem.is_active self ->
  count (active_items (ContractItem_save row db) c) = count (active_items db c).
Proof.
  intros Hs Hpk Hct Hac. unfold count, active_items, ContractItem_save, upsert.
  cbn [contract_items set_contract_items].
  rewrite Hpk, (in_step_row_exists db self Hs). f_equal.
  apply length_filter_map_same. intros r Hr.
  destruct (Nat.eqb (ContractItem.pk r) (ContractItem.pk self)) eqn:Ek; [|reflexivity].
  apply Nat.eqb_eq in Ek. destruct Hs as [_ Hs].
  destruct (Hs r Hr Ek) as [Hc Ha]. rewrite Hct, Hac, Hc, Ha. reflexivity.
Qed.

(** C4, amended.  [update_final_price] is idempotent on a stored item, one
    whose row is in the table with the contract and the active flag of the
    instance: called a second time on the instance and the database the
    first call left, on the same day, it returns the same instance and the
    same database; in particular [final_price] is the value the first call
    gave.  So it is with the prices written to their [DecimalField(8, 2)]
    columns: when the first call returns, the second returns the same
    instance and leaves the same rows. *)
Theorem update_final_price_idempotent :
  forall (today : date) (self : ContractItem.t) (db : DB),
    in_step db self ->
    update_final_price today (fst (update_final_price today self db))
                             (snd (update_final_price today self db))
    = update_final_price today self db
    /\ ContractItem.final_price
         (fst (update_final_price today (fst (update_final_price today self db))
                                        (snd (update_final_price today self db))))
       = ContractItem.final_price (fst (update_final_price today self db))
    /\ (forall self' db',
          update_final_price_written today self db = Stored (self', db') ->
          update_final_price_written today self' db' = Stored (self', db')).
Proof.
  intros today self db Hs.
  assert (update_final_price today (fst (update_final_price today self db))
                                   (snd (update_final_price today self db))
          = update_final_price today self db) as H.
  { unfold update_final_price at 1. simpl.
    rewrite (calculate_discounts_reads today db _ self _);
      [| reflexivity | apply save_keeps_active_count, Hs | reflexivity ].
    unfold update_final_price. rewrite set_final_price_twice.
    rewrite ContractItem_save_again. reflexivity. }
  split; [exact H|]. split; [rewrite H; reflexivity|].
  intros self' db' Hw.
  destruct (update_final_price_written_stored today self self' db db' Hw)
    as [Hself [row [Hrow Hdb]]].
  destruct (ContractItem_row_stored self' row Hrow)
    as [_ [_ [Hpk [Hct [_ [_ Hac]]]]]].
  assert (fst (update_final_price today self' db') = self') as Hfst.
  { rewrite Hself at 2. unfold update_final_price. cbn [fst].
    rewrite (calculate_discounts_reads today db db' self self');
      [ rewrite Hself; reflexivity
      | rewrite Hdb; reflexivity
      | rewrite Hdb, Hself; apply (save_row_keeps_active_count db self row);
        [ exact Hs
        | rewrite Hpk, Hself; reflexivity
        | rewrite Hct, Hself; reflexivity
        | rewrite Hac, Hself; reflexivity ]
      | rewrite Hself; reflexivity ]. }
  unfold update_final_price_written, ContractItem_save_written.
  rewrite Hfst, Hrow, Hdb, ContractItem_save_again. reflexivity.
Qed.

(** The item of 20 and the 10 percent rule, with a second item in the
    contract: the second recalculation changes nothing. *)
Lemma update_final_price_idempotent_witness :
  let self := item 1 20 in
  let db := catalog [rule 1 percentage 10 None None] [self; item 2 30] in
  in_step db self
  /\ update_final_price 5 (fst (update_final_price 5 self db))
                          (snd (update_final_price 5 self db))
     = update_final_price 5 self db.
Proof.
  cbv zeta.
  assert (in_step (catalog [rule 1 percentage 10 None None] [item 1 20; item 2 30])
                  (item 1 20)) as Hs.
  { split.
    - exists (item 1 20). split; [left; reflexivity | reflexivity].
    - intros r [<-|[<-|[]]]; simpl; intros Hk; [split; reflexivity | discriminate Hk]. }
  split; [exact Hs|].
  exact (proj1 (update_final_price_idempotent 5 _ _ Hs)).
Defined.
